(** * Risk-management state machine of the WLFI futures bot (main.py)

    A shallow embedding of the position tracker, the market-data cache, the
    webhook deduplicator and the three protective procedures, with the
    properties of the specification stated and settled over it.

    Modelling conventions.
    - Python floats (prices, balances, sizes, timestamps) are exact rationals
      [Q]; a float division by zero is an explicit [Raised] outcome.
    - The venue is an oracle: every invocation of a procedure consumes one
      [Env], the record of the answers the venue and the clock give during
      that invocation.
    - Every order sent to the venue (POST place-order) is appended to a log
      kept next to the three module-level dictionaries.
    - Handlers run one after the other; interleavings of request threads are
      outside the model. *)

From Stdlib Require Import QArith Qround ZArith String Ascii List Bool Lia Lqa.
Import ListNotations.

Local Open Scope Q_scope.

(** ** Python arithmetic on rationals *)

Module Py.

Definition ltb (x y : Q) : bool := negb (Qle_bool y x).
Definition leb (x y : Q) : bool := Qle_bool x y.
Definition eqb (x y : Q) : bool := Qeq_bool x y.

(** [int(x)]: truncation toward zero. *)
Definition int (x : Q) : Z :=
  if Qle_bool 0 x then Qfloor x else Qceiling x.

(** [round(x, 0)]: nearest integer, ties to the even neighbour. *)
Definition round0 (x : Q) : Z :=
  let f := Qfloor x in
  let r := x - inject_Z f in
  if ltb r (1 # 2) then f
  else if ltb (1 # 2) r then (f + 1)%Z
  else if Z.even f then f else (f + 1)%Z.

Definition lower_ascii (c : ascii) : ascii :=
  let n := nat_of_ascii c in
  if (65 <=? n)%nat && (n <=? 90)%nat then ascii_of_nat (n + 32) else c.

(** [str.lower()] on the ASCII range. *)
Fixpoint lower (s : string) : string :=
  match s with
  | EmptyString => EmptyString
  | String c s' => String (lower_ascii c) (lower s')
  end.

End Py.

Infix "<?" := Py.ltb (at level 70, no associativity) : Q_scope.
Infix "<=?" := Py.leb (at level 70, no associativity) : Q_scope.
Infix "=?" := Py.eqb (at level 70, no associativity) : Q_scope.

(** ** Configuration constants *)

Definition LEVERAGE : Q := 4.
Definition POSITION_SIZE_PERCENT : Q := 0.96.
Definition MIN_ORDER_VALUE : Q := 5.
Definition STOP_LOSS_PERCENT : Q := 0.07.
Definition TRAILING_PROFIT_DROP : Q := 0.25.
Definition REENTRY_THRESHOLD : Q := 0.003.
Definition MIN_PROFIT_FOR_TRAILING : Q := 0.008.
Definition CACHE_TTL : Q := 0.1.

(** ** Data model *)

(** The values ever stored under ['side']: [''], ['long'], ['short']. *)
Inductive Side : Type := Flat | Long | Short.

(** The ['side'] of an order request: ['buy'] or ['sell']. *)
Inductive OrderSide : Type := Buy | Sell.

Record Order : Type := mkOrder {
  order_side : OrderSide;
  order_size : Z;            (* str(int(size)) *)
  reduce_only : bool         (* 'reduceOnly': 'YES' on closing orders *)
}.

(** [position_tracker] *)
Record Tracker : Type := mkTracker {
  entry_price : Q;
  side : Side;
  size : Q;
  stop_loss_price : Q;
  last_check : Q;
  peak_profit_percent : Q;
  temporarily_closed : bool;
  reentry_price : Q;
  reentry_attempts : Z;
  last_trailing_action : Q;
  tradingview_active : bool;
  tv_position : string
}.

(** The tuple stored under [cache['data']]. *)
Record Snapshot : Type := mkSnapshot {
  snap_balance : Q;
  snap_price : Q;
  snap_long : Q;
  snap_short : Q
}.

Record Cache : Type := mkCache {
  cache_time : Q;
  cache_data : option Snapshot
}.

Record LastWebhook : Type := mkLastWebhook {
  lw_time : Q;
  lw_data : option string
}.

(** The module-level state, together with the log of order requests. *)
Record World : Type := mkWorld {
  position_tracker : Tracker;
  cache : Cache;
  last_webhook : LastWebhook;
  orders : list Order
}.

(** What the clock and the venue answer during one invocation. *)
Record Env : Type := mkEnv {
  now : Q;             (* time.time() read by the procedure itself *)
  now_cache : Q;       (* time.time() read inside get_cached_data *)
  v_balance : Q;       (* get_account_balance() *)
  v_price : Q;         (* get_current_price() inside get_cached_data *)
  v_long : Q;          (* get_positions(): long size *)
  v_short : Q;         (* get_positions(): short size *)
  close_ok : bool;     (* venue accepts the first closing order *)
  close_ok2 : bool;    (* venue accepts the second closing order *)
  open_price : Q;      (* get_current_price() inside open_position_market *)
  open_ok : bool;      (* venue accepts the opening order *)
  now_open : Q         (* time.time() read inside open_position_market *)
}.

Inductive Outcome : Type := Done | Raised.

(** ** Field updates *)

Section Setters.

Variable t : Tracker.

Definition set_entry_price v := mkTracker v (side t) (size t)
  (stop_loss_price t) (last_check t) (peak_profit_percent t)
  (temporarily_closed t) (reentry_price t) (reentry_attempts t)
  (last_trailing_action t) (tradingview_active t) (tv_position t).
Definition set_side v := mkTracker (entry_price t) v (size t)
  (stop_loss_price t) (last_check t) (peak_profit_percent t)
  (temporarily_closed t) (reentry_price t) (reentry_attempts t)
  (last_trailing_action t) (tradingview_active t) (tv_position t).
Definition set_size v := mkTracker (entry_price t) (side t) v
  (stop_loss_price t) (last_check t) (peak_profit_percent t)
  (temporarily_closed t) (reentry_price t) (reentry_attempts t)
  (last_trailing_action t) (tradingview_active t) (tv_position t).
Definition set_stop_loss_price v := mkTracker (entry_price t) (side t)
  (size t) v (last_check t) (peak_profit_percent t)
  (temporarily_closed t) (reentry_price t) (reentry_attempts t)
  (last_trailing_action t) (tradingview_active t) (tv_position t).
Definition set_last_check v := mkTracker (entry_price t) (side t) (size t)
  (stop_loss_price t) v (peak_profit_percent t)
  (temporarily_closed t) (reentry_price t) (reentry_attempts t)
  (last_trailing_action t) (tradingview_active t) (tv_position t).
Definition set_peak_profit_percent v := mkTracker (entry_price t) (side t)
  (size t) (stop_loss_price t) (last_check t) v
  (temporarily_closed t) (reentry_price t) (reentry_attempts t)
  (last_trailing_action t) (tradingview_active t) (tv_position t).
Definition set_temporarily_closed v := mkTracker (entry_price t) (side t)
  (size t) (stop_loss_price t) (last_check t) (peak_profit_percent t)
  v (reentry_price t) (reentry_attempts t)
  (last_trailing_action t) (tradingview_active t) (tv_position t).
Definition set_reentry_price v := mkTracker (entry_price t) (side t)
  (size t) (stop_loss_price t) (last_check t) (peak_profit_percent t)
  (temporarily_closed t) v (reentry_attempts t)
  (last_trailing_action t) (tradingview_active t) (tv_position t).
Definition set_reentry_attempts v := mkTracker (entry_price t) (side t)
  (size t) (stop_loss_price t) (last_check t) (peak_profit_percent t)
  (temporarily_closed t) (reentry_price t) v
  (last_trailing_action t) (tradingview_active t) (tv_position t).
Definition set_last_trailing_action v := mkTracker (entry_price t) (side t)
  (size t) (stop_loss_price t) (last_check t) (peak_profit_percent t)
  (temporarily_closed t) (reentry_price t) (reentry_attempts t)
  v (tradingview_active t) (tv_position t).
Definition set_tradingview_active v := mkTracker (entry_price t) (side t)
  (size t) (stop_loss_price t) (last_check t) (peak_profit_percent t)
  (temporarily_closed t) (reentry_price t) (reentry_attempts t)
  (last_trailing_action t) v (tv_position t).
Definition set_tv_position v := mkTracker (entry_price t) (side t)
  (size t) (stop_loss_price t) (last_check t) (peak_profit_percent t)
  (temporarily_closed t) (reentry_price t) (reentry_attempts t)
  (last_trailing_action t) (tradingview_active t) v.

End Setters.

(** [position_tracker[...] = ...]: apply an update to the tracker. *)
Definition track (f : Tracker -> Tracker) (w : World) : World :=
  mkWorld (f (position_tracker w)) (cache w) (last_webhook w) (orders w).

Definition with_cache (c : Cache) (w : World) : World :=
  mkWorld (position_tracker w) c (last_webhook w) (orders w).

Definition with_last_webhook (l : LastWebhook) (w : World) : World :=
  mkWorld (position_tracker w) (cache w) l (orders w).

(** One POST to the place-order endpoint. *)
Definition send (o : Order) (w : World) : World :=
  mkWorld (position_tracker w) (cache w) (last_webhook w) (orders w ++ [o]).

(** The state at process start. *)
Definition initial : World :=
  mkWorld
    (mkTracker 0 Flat 0 0 0 0 false 0 0%Z 0 false EmptyString)
    (mkCache 0 None)
    (mkLastWebhook 0 None)
    [].

(** ** Market data cache *)

Definition fetched (e : Env) : Snapshot :=
  mkSnapshot (v_balance e) (v_price e) (v_long e) (v_short e).

Definition get_cached_data (e : Env) (w : World) : Snapshot * World :=
  match cache_data (cache w) with
  | Some d =>
      if now_cache e - cache_time (cache w) <? CACHE_TTL then (d, w)
      else (fetched e, with_cache (mkCache (now_cache e) (Some (fetched e))) w)
  | None => (fetched e, with_cache (mkCache (now_cache e) (Some (fetched e))) w)
  end.

(** [cache['time'] = 0] *)
Definition invalidate (w : World) : World :=
  with_cache (mkCache 0 (cache_data (cache w))) w.

(** The snapshot a procedure works with: invalidate, then read. *)
Definition observed (e : Env) (w : World) : Snapshot :=
  fst (get_cached_data e (invalidate w)).

(** The state that read leaves behind. *)
Definition refreshed (e : Env) (w : World) : World :=
  snd (get_cached_data e (invalidate w)).

(** ** Quantity sizing *)

(** [None] is the ZeroDivisionError of [exposure / price] at price 0. *)
Definition calculate_quantity (balance price : Q) : option Q :=
  let capital := balance * POSITION_SIZE_PERCENT in
  let exposure := capital * LEVERAGE in
  if exposure <? MIN_ORDER_VALUE then Some 0
  else if price =? 0 then None
  else
    let quantity := exposure / price in
    Some (inject_Z (Py.round0 quantity)).

(** ** Order execution *)

Definition stop_price_for (sd : Side) (current_price : Q) : Q :=
  match sd with
  | Long => current_price * (1 - (STOP_LOSS_PERCENT / LEVERAGE))
  | _ => current_price * (1 + (STOP_LOSS_PERCENT / LEVERAGE))
  end.

(** The tracker update after an accepted opening order. *)
Definition record_open (os : OrderSide) (sz current_price : Q) (e : Env)
    (w : World) : World :=
  let sd := match os with Buy => Long | Sell => Short end in
  let w := track (fun t => set_entry_price t current_price) w in
  let w := track (fun t => set_side t sd) w in
  let w := track (fun t => set_size t sz) w in
  let w := track (fun t => set_temporarily_closed t false) w in
  let w := track (fun t => set_reentry_attempts t 0%Z) w in
  let w := track (fun t => set_last_trailing_action t (now_open e)) w in
  let stop_price := stop_price_for (side (position_tracker w)) current_price in
  track (fun t => set_stop_loss_price t stop_price) w.

Definition open_position_market (os : OrderSide) (sz : Q) (e : Env)
    (w : World) : bool * World :=
  if sz <=? 0 then (false, w)
  else
    let current_price := open_price e in
    if current_price <=? 0 then (false, w)
    else
      let w := send (mkOrder os (Py.int sz) false) w in
      if open_ok e then (true, record_open os sz current_price e w)
      else (false, w).

(** ['sell' if side == 'long' else 'buy'] *)
Definition close_side_of (sd : Side) : OrderSide :=
  match sd with Long => Sell | _ => Buy end.

(** [accepted] is the venue's answer to this closing order. *)
Definition close_position_market (accepted : bool) (sd : Side) (w : World)
    : bool * World :=
  let close_side := close_side_of sd in
  let w := send (mkOrder close_side (Py.int (size (position_tracker w))) true) w in
  (accepted, w).

(** ** Risk engine *)

(** [long_size if tracked_side == 'long' else short_size] *)
Definition venue_size (sd : Side) (snap : Snapshot) : Q :=
  match sd with Long => snap_long snap | _ => snap_short snap end.

Definition side_empty (sd : Side) : bool :=
  match sd with Flat => true | _ => false end.

(** Unleveraged directional move of [current_price] away from [reference]. *)
Definition directional (sd : Side) (current_price reference : Q) : Q :=
  match sd with
  | Long => (current_price - reference) / reference
  | _ => (reference - current_price) / reference
  end.

Definition flatten (w : World) : World :=
  let w := track (fun t => set_side t Flat) w in
  let w := track (fun t => set_size t 0) w in
  track (fun t => set_temporarily_closed t false) w.

Definition check_stop_loss (e : Env) (w : World) : Outcome * World :=
  if negb (tradingview_active (position_tracker w)) then (Done, w)
  else if side_empty (side (position_tracker w))
          || (size (position_tracker w) <=? 0) then (Done, w)
  else
    let current_time := now e in
    if current_time - last_check (position_tracker w) <? 0.5 then (Done, w)
    else
      let w := track (fun t => set_last_check t current_time) w in
      let '(snap, w) := get_cached_data e (invalidate w) in
      let current_price := snap_price snap in
      if current_price <=? 0 then (Done, w)
      else
        let tracked_side := side (position_tracker w) in
        let tracked_size := size (position_tracker w) in
        let actual_size := venue_size tracked_side snap in
        if (actual_size =? 0) && (0 <? tracked_size) then (Done, flatten w)
        else
          let entry_price := entry_price (position_tracker w) in
          let stop_price := stop_loss_price (position_tracker w) in
          let stop_triggered :=
            match tracked_side with
            | Long => current_price <=? stop_price
            | Short => stop_price <=? current_price
            | Flat => false
            end in
          if stop_triggered then
            (* the loss percentage printed in the log divides by the entry *)
            if entry_price =? 0 then (Raised, w)
            else
              let '(ok, w) := close_position_market (close_ok e) tracked_side w in
              if ok then (Done, flatten w) else (Done, w)
          else (Done, w).

Definition check_reentry (e : Env) (w : World) : Outcome * World :=
  if negb (tradingview_active (position_tracker w)) then (Done, w)
  else if negb (temporarily_closed (position_tracker w)) then (Done, w)
  else if (3 <=? reentry_attempts (position_tracker w))%Z then (Done, w)
  else
    let current_time := now e in
    if current_time - last_trailing_action (position_tracker w) <? 3 then (Done, w)
    else
      let '(snap, w) := get_cached_data e (invalidate w) in
      let balance := snap_balance snap in
      let current_price := snap_price snap in
      if current_price <=? 0 then (Done, w)
      else
        let entry_price := entry_price (position_tracker w) in
        let reentry_price := reentry_price (position_tracker w) in
        let sd := side (position_tracker w) in
        if (entry_price =? 0) || (reentry_price =? 0) then (Raised, w)
        else
          let pnl_vs_original := directional sd current_price entry_price in
          let gain_from_close := directional sd current_price reentry_price in
          if REENTRY_THRESHOLD <=? gain_from_close then
            let w := track (fun t => set_reentry_attempts t
                                       (reentry_attempts t + 1)%Z) w in
            match calculate_quantity balance current_price with
            | None => (Raised, w)
            | Some quantity =>
                if 0 <? quantity then
                  let buy_side := match sd with Long => Buy | _ => Sell end in
                  let '(ok, w) := open_position_market buy_side quantity e w in
                  if ok then
                    let w := track (fun t => set_temporarily_closed t false) w in
                    let w := track (fun t => set_peak_profit_percent t
                                               pnl_vs_original) w in
                    let w := track (fun t => set_last_trailing_action t
                                               current_time) w in
                    (Done, w)
                  else (Done, w)
                else (Done, w)
            end
          else (Done, w).

Definition check_trailing_profit (e : Env) (w : World) : Outcome * World :=
  if negb (tradingview_active (position_tracker w)) then (Done, w)
  else if side_empty (side (position_tracker w))
          || (size (position_tracker w) <=? 0) then (Done, w)
  else if temporarily_closed (position_tracker w) then check_reentry e w
  else
    let current_time := now e in
    if current_time - last_check (position_tracker w) <? 0.5 then (Done, w)
    else if current_time - last_trailing_action (position_tracker w) <? 3
    then (Done, w)
    else
      let '(snap, w) := get_cached_data e (invalidate w) in
      let current_price := snap_price snap in
      if current_price <=? 0 then (Done, w)
      else
        let entry_price := entry_price (position_tracker w) in
        let sd := side (position_tracker w) in
        if entry_price =? 0 then (Raised, w)
        else
          let pnl_percent := directional sd current_price entry_price in
          let w :=
            if peak_profit_percent (position_tracker w) <? pnl_percent
            then track (fun t => set_peak_profit_percent t pnl_percent) w
            else w in
          let peak := peak_profit_percent (position_tracker w) in
          if peak <? MIN_PROFIT_FOR_TRAILING then (Done, w)
          else
            let drop := peak - pnl_percent in
            let drop_percent_of_peak := if 0 <? peak then drop / peak else 0 in
            if TRAILING_PROFIT_DROP <=? drop_percent_of_peak then
              let '(ok, w) := close_position_market (close_ok e) sd w in
              if ok then
                let w := track (fun t => set_temporarily_closed t true) w in
                let w := track (fun t => set_reentry_price t current_price) w in
                let w := track (fun t => set_reentry_attempts t 0%Z) w in
                let w := track (fun t => set_last_trailing_action t
                                           current_time) w in
                (Done, w)
              else (Done, w)
            else (Done, w).

(** ** HTTP handlers *)

(** [/health]: the bare [except: pass] swallows a raised error. *)
Definition health (e1 e2 : Env) (w : World) : World :=
  if tradingview_active (position_tracker w) then
    match check_stop_loss e1 w with
    | (Raised, w) => w
    | (Done, w) => snd (check_trailing_profit e2 w)
    end
  else w.

(** A value found under a key of the payload. *)
Inductive JField : Type :=
  | Missing                  (* key absent: the default of [data.get] *)
  | JStr (s : string)
  | JOther.                  (* any value without a [lower] method *)

(** The request body as the handler sees it. [dump] is
    [json.dumps(data, sort_keys=True)]. *)
Inductive Body : Type :=
  | Malformed                                  (* get_json() raises *)
  | NotDict (dump : string)                    (* JSON, but not an object *)
  | Dict (dump : string) (marketPosition prevMarketPosition : JField).

Inductive Response : Type := StatusOk | StatusDuplicate | StatusError.

Definition body_dump (b : Body) : option string :=
  match b with
  | Malformed => None
  | NotDict d => Some d
  | Dict d _ _ => Some d
  end.

(** [data.get(key, '').lower()]; [None] when the call raises. *)
Definition get_lower (f : JField) : option string :=
  match f with
  | Missing => Some EmptyString
  | JStr s => Some (Py.lower s)
  | JOther => None
  end.

Definition is_duplicate (current_time : Q) (data_str : string) (w : World)
    : bool :=
  (current_time - lw_time (last_webhook w) <? 2)
  && match lw_data (last_webhook w) with
     | Some d => String.eqb d data_str
     | None => false
     end.

(** The [long] and [short] branches, [os] being the side to buy or sell,
    [same] the venue size already held in that direction and [opposite]
    the venue size held against it. *)
Definition follow_signal (os : OrderSide) (same opposite balance
    current_price : Q) (e : Env) (w : World) : Response * World :=
  let w := track (fun t => set_tradingview_active t true) w in
  if 0 <? same then (StatusOk, w)
  else
    let w :=
      if 0 <? opposite
      then snd (close_position_market (close_ok e)
                  (match os with Buy => Short | Sell => Long end) w)
      else w in
    match calculate_quantity balance current_price with
    | None => (StatusError, w)
    | Some quantity =>
        if 0 <? quantity
        then (StatusOk, snd (open_position_market os quantity e w))
        else (StatusOk, w)
    end.

(** The [flat] branch: close what the venue reports, then disable the
    protections. *)
Definition close_all (long_size short_size : Q) (e : Env) (w : World)
    : World :=
  let w :=
    if 0 <? long_size
    then snd (close_position_market (close_ok e) Long w)
    else w in
  if 0 <? short_size
  then snd (close_position_market (close_ok2 e) Short w)
  else w.

Definition flat_signal (long_size short_size : Q) (e : Env) (w : World)
    : Response * World :=
  let w := close_all long_size short_size e w in
  let w := track (fun t => set_tradingview_active t false) w in
  let w := flatten w in
  let w := track (fun t => set_peak_profit_percent t 0) w in
  (StatusOk, w).

Definition webhook (b : Body) (e : Env) (w : World) : Response * World :=
  match body_dump b with
  | None => (StatusError, w)
  | Some data_str =>
      let current_time := now e in
      if is_duplicate current_time data_str w then (StatusDuplicate, w)
      else
        let w := with_last_webhook (mkLastWebhook current_time (Some data_str)) w in
        match b with
        | Dict _ mp prev =>
            match get_lower mp, get_lower prev with
            | Some market_position, Some _ =>
                let w := track (fun t => set_tv_position t market_position) w in
                let '(snap, w) := get_cached_data e (invalidate w) in
                let balance := snap_balance snap in
                let current_price := snap_price snap in
                let long_size := snap_long snap in
                let short_size := snap_short snap in
                if (balance <=? 0) || (current_price <=? 0)
                then (StatusError, w)
                else if String.eqb market_position "long" then
                  follow_signal Buy long_size short_size balance
                    current_price e w
                else if String.eqb market_position "short" then
                  follow_signal Sell short_size long_size balance
                    current_price e w
                else if String.eqb market_position "flat" then
                  flat_signal long_size short_size e w
                else (StatusOk, w)
            | _, _ => (StatusError, w)
            end
        | _ => (StatusError, w)
        end
  end.

(** ** Runs of the program *)

Inductive Request : Type :=
  | Webhook (b : Body) (e : Env)          (* POST /webhook *)
  | Health (e1 e2 : Env)                  (* GET /health *)
  | StopLossCheck (e : Env)               (* the procedures on their own *)
  | TrailingCheck (e : Env)
  | ReentryCheck (e : Env).

Definition serve (r : Request) (w : World) : World :=
  match r with
  | Webhook b e => snd (webhook b e w)
  | Health e1 e2 => health e1 e2 w
  | StopLossCheck e => snd (check_stop_loss e w)
  | TrailingCheck e => snd (check_trailing_profit e w)
  | ReentryCheck e => snd (check_reentry e w)
  end.

Definition run (rs : list Request) (w : World) : World :=
  fold_left (fun w r => serve r w) rs w.

Definition reachable (w : World) : Prop :=
  exists rs : list Request, w = run rs initial.

(** What every run maintains on the tracker. *)
Definition Inv (t : Tracker) : Prop :=
  (0 <= reentry_attempts t <= 3)%Z
  /\ (side t <> Flat -> 0 < entry_price t /\ 0 < size t)
  /\ (temporarily_closed t = true -> 0 < reentry_price t /\ side t <> Flat)
  /\ (temporarily_closed t = false -> side t <> Flat ->
      reentry_attempts t = 0%Z)
  /\ (side t <> Flat ->
      stop_loss_price t = stop_price_for (side t) (entry_price t)).



(** ** Sample inputs *)

Definition sample_env : Env :=
  mkEnv 1000 1000 1000 1 0 0 true true 1 true 1000.

(** [json.dumps] of a payload with the single key [marketPosition]. *)
Definition dumps_stance (stance : string) : string :=
  let q := String (ascii_of_nat 34) EmptyString in
  ("{" ++ q ++ "marketPosition" ++ q ++ ": " ++ q ++ stance ++ q ++ "}")%string.

Definition stance_body (stance : string) : Body :=
  Dict (dumps_stance stance) (JStr stance) Missing.

Definition open_long : Request := Webhook (stance_body "long") sample_env.

(** [n] health ticks in a row, each with its own answers. *)
Definition ticks (es : list (Env * Env)) (w : World) : World :=
  fold_left (fun w ee => health (fst ee) (snd ee) w) es w.

(** A long opened at 1.00 whose profit peaks at 1.01 and which is locked
    when the price falls back to 0.99; then the price recovers to 0.993. *)
Definition e_peak : Env := mkEnv 1010 1010 40 1.01 3840 0 true true 1.01 true 1010.
Definition e_drop : Env := mkEnv 1020 1020 40 0.99 3840 0 true true 0.99 true 1020.
Definition e_back : Env := mkEnv 1030 1030 1000 0.993 0 0 true true 0.993 true 1030.

Definition peaked_long : World :=
  run [open_long; TrailingCheck e_peak] initial.

Definition locked_long : World :=
  run [open_long; TrailingCheck e_peak; TrailingCheck e_drop] initial.

(** The long opened at 1.00 (stop 0.9825) sees the price fall to 0.98. *)
Definition e_stop : Env := mkEnv 1010 1010 40 0.98 3840 0 true true 0.98 true 1010.

(** After the peak at 1.01 the price retraces to 1.007. *)
Definition e_retrace : Env :=
  mkEnv 1020 1020 40 1.007 3840 0 true true 1.007 true 1020.

(** A flat signal while the venue reports no available balance, and one
    with balance available. *)
Definition e_no_balance : Env :=
  mkEnv 1010 1010 0 0.98 3840 0 true true 0.98 true 1010.
Definition e_flat : Env :=
  mkEnv 1010 1010 40 0.98 3840 0 true true 0.98 true 1010.

(** The venue rejects the re-entry order three times in a row. *)
Definition e_rejected : Env :=
  mkEnv 1030 1030 1000 0.993 0 0 true true 0.993 false 1030.

Definition exhausted_long : World :=
  run [open_long; TrailingCheck e_peak; TrailingCheck e_drop;
       ReentryCheck e_rejected; ReentryCheck e_rejected;
       ReentryCheck e_rejected] initial.

(** A flat signal followed by a new long signal. *)
Definition e_again : Env := mkEnv 1050 1050 1000 1 0 0 true true 1 true 1050.



(** ** Venue responses *)

Definition TARGET_SYMBOL : string := "WLFIUSDT".
Definition MARGIN_COIN : string := "USDT".

(** What [bitget_request] returns is [None] after a transport error and
    otherwise the decoded JSON object, of which the helpers read ['code']
    and the list under ['data']. A key that is absent is [None]; a number
    sent as a string is the value [float] parses from it. *)
Record ApiResponse (A : Type) : Type := mkApiResponse {
  api_code : option string;
  api_data : list A           (* data.get('data', []) *)
}.
Arguments mkApiResponse {A} _ _.
Arguments api_code {A} _.
Arguments api_data {A} _.

Record Account : Type := mkAccount {
  marginCoin : option string;
  available : option Q
}.

Record Ticker : Type := mkTicker {
  lastPr : option Q
}.

Record Position : Type := mkPosition {
  symbol : option string;
  total : option Q;
  holdSide : option string
}.

(** [data and data.get('code') == '00000'] *)
Definition api_ok {A : Type} (data : option (ApiResponse A)) : bool :=
  match data with
  | Some r =>
      match api_code r with
      | Some c => String.eqb c "00000"
      | None => false
      end
  | None => false
  end.

Definition key_is (k : option string) (v : string) : bool :=
  match k with
  | Some s => String.eqb s v
  | None => false
  end.

(** [float(item.get(key, 0))] *)
Definition float_or_zero (v : option Q) : Q :=
  match v with
  | Some q => q
  | None => 0
  end.

(** The loop of [get_account_balance]: the first account in the margin coin
    decides. *)
Fixpoint first_available (items : list Account) : Q :=
  match items with
  | [] => 0
  | item :: rest =>
      if key_is (marginCoin item) MARGIN_COIN
      then float_or_zero (available item)
      else first_available rest
  end.

Definition get_account_balance (data : option (ApiResponse Account)) : Q :=
  match data with
  | Some r => if api_ok data then first_available (api_data r) else 0
  | None => 0
  end.

Definition get_current_price (data : option (ApiResponse Ticker)) : Q :=
  match data with
  | Some r =>
      if api_ok data then
        match api_data r with
        | first :: _ => float_or_zero (lastPr first)
        | [] => 0
        end
      else 0
  | None => 0
  end.

(** One turn of the loop of [get_positions] on [(long_size, short_size)]. *)
Definition scan_position (sizes : Q * Q) (pos : Position) : Q * Q :=
  if key_is (symbol pos) TARGET_SYMBOL then
    if key_is (holdSide pos) "long" then (float_or_zero (total pos), snd sizes)
    else if key_is (holdSide pos) "short"
         then (fst sizes, float_or_zero (total pos))
         else sizes
  else sizes.

Definition get_positions (data : option (ApiResponse Position)) : Q * Q :=
  match data with
  | Some r =>
      if api_ok data then fold_left scan_position (api_data r) (0, 0)
      else (0, 0)
  | None => (0, 0)
  end.

(** ** The status endpoint *)

(** The JSON object of [/status]; [pnl] and [pnl_leveraged] hold the
    percentages before they are formatted with two decimals. *)
Record StatusData : Type := mkStatusData {
  st_tradingview_active : bool;
  st_tv_position : string;
  st_actual_position : Side;     (* 'long', 'short' or 'flat' *)
  st_size : Q;
  st_entry : Q;
  st_current : Q;
  st_stop : Q;
  st_balance : Q;
  st_pnl : option Q;
  st_pnl_leveraged : option Q
}.

(** [None] is the 500 answer of the [except] clause. *)
Definition status (e : Env) (w : World) : option StatusData * World :=
  let '(snap, w) := get_cached_data e w in
  let balance := snap_balance snap in
  let current_price := snap_price snap in
  let long_size := snap_long snap in
  let short_size := snap_short snap in
  let t := position_tracker w in
  let actual_position :=
    if 0 <? long_size then Long else if 0 <? short_size then Short else Flat in
  let data pnl :=
    mkStatusData (tradingview_active t) (tv_position t) actual_position
      (size t) (entry_price t) current_price (stop_loss_price t) balance
      pnl
      (match pnl with Some p => Some (p * LEVERAGE) | None => None end) in
  if side_empty (side t) then (Some (data None), w)
  else
    let entry := entry_price t in
    if entry =? 0 then (None, w)
    else
      let pnl :=
        match side t with
        | Long => (current_price - entry) / entry * 100
        | _ => (entry - current_price) / entry * 100
        end in
      (Some (data (Some pnl)), w).

(** ** Further sample inputs *)

Definition accounts_sample : option (ApiResponse Account) :=
  Some (mkApiResponse (Some "00000"%string)
          [mkAccount (Some "BTC"%string) (Some 2);
           mkAccount (Some "USDT"%string) (Some 1000);
           mkAccount (Some "USDT"%string) (Some 7)]).

Definition positions_sample : option (ApiResponse Position) :=
  Some (mkApiResponse (Some "00000"%string)
          [mkPosition (Some "BTCUSDT"%string) (Some 5) (Some "long"%string);
           mkPosition (Some "WLFIUSDT"%string) (Some 3840) (Some "long"%string);
           mkPosition (Some "WLFIUSDT"%string) (Some 12) (Some "net"%string)]).

(** A read 50 ms after the one of [sample_env], the venue answering
    differently. *)
Definition e_soon : Env := mkEnv 0 (1000 + 0.05) 0 0 0 0 true true 0 true 0.

(** The peaked long is stopped out at 0.98; the peak of 0.01 stays stored. *)
Definition stopped_long : World :=
  run [open_long; TrailingCheck e_peak; StopLossCheck e_stop] initial.

(** The first trailing check after a new open at 1.00, price unchanged. *)
Definition e_first_check : Env :=
  mkEnv 1060 1060 40 1 3840 0 true true 1 true 1060.


(** The venue fails to deliver a price. *)
Definition e_no_price : Env :=
  mkEnv 1030 1030 1000 0 0 0 true true 0 true 1030.

(** ** Directional signals, by the side to trade *)







(** ** Order log *)

(** An opening order is for at least one unit. *)
Definition sound_order (o : Order) : Prop :=
  reduce_only o = false -> (1 <= order_size o)%Z.

(** [w'] has the order log of [w] followed by at most [n] further orders,
    all of them sound. *)
Definition appended (n : nat) (w w' : World) : Prop :=
  exists l, orders w' = orders w ++ l
            /\ (length l <= n)%nat
            /\ Forall sound_order l.


(** Two results that agree on everything but the cache. *)
Definition same_but_cache {A : Type} (r1 r2 : A * World) : Prop :=
  fst r1 = fst r2
  /\ position_tracker (snd r1) = position_tracker (snd r2)
  /\ orders (snd r1) = orders (snd r2)
  /\ last_webhook (snd r1) = last_webhook (snd r2).

(** A flat tracker holds no size and is not locked. *)
Definition FlatInv (t : Tracker) : Prop :=
  side t = Flat -> size t = 0 /\ temporarily_closed t = false.
(** * Properties *)

(** ** Comparisons *)

Section Comparisons.

Variables x y : Q.

Lemma ltb_true_iff : (x <? y) = true <-> x < y.
Proof.
  unfold Py.ltb. rewrite negb_true_iff. split; intro H.
  - apply Qnot_le_lt. intro L. apply Qle_bool_iff in L. congruence.
  - destruct (Qle_bool y x) eqn:E; [|reflexivity].
    apply Qle_bool_iff in E. exfalso. exact (Qlt_not_le _ _ H E).
Qed.

Lemma ltb_false_iff : (x <? y) = false <-> y <= x.
Proof.
  unfold Py.ltb. rewrite negb_false_iff. apply Qle_bool_iff.
Qed.

Lemma leb_true_iff : (x <=? y) = true <-> x <= y.
Proof. apply Qle_bool_iff. Qed.

Lemma leb_false_iff : (x <=? y) = false <-> y < x.
Proof.
  unfold Py.leb. split; intro H.
  - apply Qnot_le_lt. intro L. apply Qle_bool_iff in L. congruence.
  - destruct (Qle_bool x y) eqn:E; [|reflexivity].
    apply Qle_bool_iff in E. exfalso. exact (Qlt_not_le _ _ H E).
Qed.

Lemma eqb_true_iff : (x =? y) = true <-> x == y.
Proof. apply Qeq_bool_iff. Qed.

Lemma eqb_false_iff : (x =? y) = false <-> ~ x == y.
Proof.
  unfold Py.eqb. split; intro H.
  - intro E. apply Qeq_bool_iff in E. congruence.
  - destruct (Qeq_bool x y) eqn:E; [|reflexivity].
    apply Qeq_bool_iff in E. contradiction.
Qed.

End Comparisons.

(** ** Rounding *)



(** ** Quantity sizing *)




(** ** The master gate *)

Lemma inactive_returns (e : Env) (w : World) :
  tradingview_active (position_tracker w) = false ->
  check_stop_loss e w = (Done, w)
  /\ check_trailing_profit e w = (Done, w)
  /\ check_reentry e w = (Done, w).
Proof.
  intro Hoff. unfold check_stop_loss, check_trailing_profit, check_reentry.
  rewrite Hoff. cbn. repeat split.
Qed.

(** C4. With [tradingview_active] false, each of the three protective
    procedures returns at once, whatever the clock and the venue answer:
    the tracker, and with it the cache, the dedup record and the order log,
    are left as they were. *)
Theorem risk_engine_gated (e : Env) (w : World)
    (Hoff : tradingview_active (position_tracker w) = false) :
  check_stop_loss e w = (Done, w)
  /\ check_trailing_profit e w = (Done, w)
  /\ check_reentry e w = (Done, w)
  /\ position_tracker (snd (check_stop_loss e w)) = position_tracker w
  /\ position_tracker (snd (check_trailing_profit e w)) = position_tracker w
  /\ position_tracker (snd (check_reentry e w)) = position_tracker w.
Proof.
  destruct (inactive_returns e w Hoff) as (H1 & H2 & H3).
  rewrite H1, H2, H3. repeat split.
Qed.

Lemma risk_engine_gated_witness :
  check_stop_loss sample_env initial = (Done, initial)
  /\ check_trailing_profit sample_env initial = (Done, initial)
  /\ check_reentry sample_env initial = (Done, initial).
Proof.
  destruct (risk_engine_gated sample_env initial eq_refl) as (H1 & H2 & H3 & _).
  repeat split; assumption.
Defined.

(** ** Deduplication *)

(** C9. A payload whose canonical serialization equals the recorded one and
    which arrives less than 2 seconds after it is answered
    [{status: duplicate}]; tracker, dedup record, cache and order log are
    unchanged. *)
Theorem webhook_duplicate (b : Body) (e : Env) (w : World) (d : string)
    (Hdump : body_dump b = Some d)
    (Hsame : lw_data (last_webhook w) = Some d)
    (Hsoon : now e - lw_time (last_webhook w) < 2) :
  webhook b e w = (StatusDuplicate, w)
  /\ position_tracker (snd (webhook b e w)) = position_tracker w
  /\ last_webhook (snd (webhook b e w)) = last_webhook w
  /\ cache (snd (webhook b e w)) = cache w
  /\ orders (snd (webhook b e w)) = orders w.
Proof.
  assert (H : webhook b e w = (StatusDuplicate, w)).
  { unfold webhook. rewrite Hdump. unfold is_duplicate. rewrite Hsame.
    apply ltb_true_iff in Hsoon. rewrite Hsoon, String.eqb_refl.
    reflexivity. }
  rewrite H. repeat split.
Qed.

Lemma webhook_duplicate_witness :
  let w := snd (webhook (stance_body "long") sample_env initial) in
  webhook (stance_body "long") sample_env w = (StatusDuplicate, w).
Proof.
  intro w.
  apply (webhook_duplicate (stance_body "long") sample_env w
           (dumps_stance "long")); reflexivity.
Defined.

(** ** Reading the cache *)

Lemma get_cached_data_invalidate (e : Env) (w : World) :
  get_cached_data e (invalidate w) = (observed e w, refreshed e w).
Proof. apply surjective_pairing. Qed.

Lemma refreshed_tracker (e : Env) (w : World) :
  position_tracker (refreshed e w) = position_tracker w.
Proof.
  unfold refreshed, get_cached_data, invalidate; cbn.
  destruct (cache_data (cache w)); [destruct (_ <? _)|]; reflexivity.
Qed.

Lemma refreshed_orders (e : Env) (w : World) :
  orders (refreshed e w) = orders w.
Proof.
  unfold refreshed, get_cached_data, invalidate; cbn.
  destruct (cache_data (cache w)); [destruct (_ <? _)|]; reflexivity.
Qed.

Lemma refreshed_last_webhook (e : Env) (w : World) :
  last_webhook (refreshed e w) = last_webhook w.
Proof.
  unfold refreshed, get_cached_data, invalidate; cbn.
  destruct (cache_data (cache w)); [destruct (_ <? _)|]; reflexivity.
Qed.

Lemma observed_track (e : Env) (f : Tracker -> Tracker) (w : World) :
  observed e (track f w) = observed e w.
Proof.
  unfold observed, get_cached_data, invalidate; cbn.
  destruct (cache_data (cache w)); [destruct (_ <? _)|]; reflexivity.
Qed.

Lemma refreshed_track (e : Env) (f : Tracker -> Tracker) (w : World) :
  refreshed e (track f w) = track f (refreshed e w).
Proof.
  unfold refreshed, get_cached_data, invalidate; cbn.
  destruct (cache_data (cache w)); [destruct (_ <? _)|]; reflexivity.
Qed.

(** With the clock at or past the TTL, the snapshot is the venue's answer. *)
Lemma observed_fresh (e : Env) (w : World) :
  CACHE_TTL <= now_cache e -> observed e w = fetched e.
Proof.
  intro H. unfold observed, get_cached_data, invalidate; cbn.
  destruct (cache_data (cache w)); [|reflexivity].
  assert (E : (now_cache e - 0 <? CACHE_TTL) = false)
    by (apply ltb_false_iff; lra).
  now rewrite E.
Qed.

(** ** The invariant *)

Ltac break_if :=
  match goal with
  | |- context [if ?c then _ else _] => destruct c eqn:?
  end.

Lemma Inv_initial : Inv (position_tracker initial).
Proof.
  unfold Inv; cbn. repeat split; try lia; try congruence; intros; congruence.
Qed.

Lemma open_position_market_Inv (os : OrderSide) (sz : Q) (e : Env) (w : World) :
  Inv (position_tracker w) ->
  Inv (position_tracker (snd (open_position_market os sz e w))).
Proof.
  intro I. unfold open_position_market.
  destruct (sz <=? 0) eqn:Hsz; [exact I|].
  destruct (open_price e <=? 0) eqn:Hp; [exact I|].
  destruct (open_ok e); [|exact I].
  apply leb_false_iff in Hsz, Hp.
  unfold Inv; cbn. repeat split; try lia; try assumption; try discriminate.
Qed.

Lemma flatten_Inv (w : World) :
  Inv (position_tracker w) -> Inv (position_tracker (flatten w)).
Proof.
  intros (Ha & _). unfold Inv; cbn.
  repeat split; try lia; try congruence; intros; congruence.
Qed.

Lemma close_position_market_tracker (a : bool) (sd : Side) (w : World) :
  position_tracker (snd (close_position_market a sd w)) = position_tracker w.
Proof. reflexivity. Qed.

Lemma set_last_check_Inv (t : Tracker) (v : Q) :
  Inv t -> Inv (set_last_check t v).
Proof. exact (fun I => I). Qed.

Lemma check_stop_loss_Inv (e : Env) (w : World) :
  Inv (position_tracker w) ->
  Inv (position_tracker (snd (check_stop_loss e w))).
Proof.
  intro I. unfold check_stop_loss.
  repeat (break_if; [exact I|]).
  rewrite get_cached_data_invalidate.
  assert (I' : Inv (position_tracker
                      (refreshed e (track (fun t => set_last_check t (now e)) w)))).
  { rewrite refreshed_tracker. exact I. }
  break_if; [exact I'|].
  break_if; [apply flatten_Inv; exact I'|].
  break_if; [|exact I'].
  break_if; [exact I'|].
  cbn [close_position_market].
  break_if; [apply flatten_Inv|]; exact I'.
Qed.

Lemma check_reentry_Inv (e : Env) (w : World) :
  Inv (position_tracker w) ->
  Inv (position_tracker (snd (check_reentry e w))).
Proof.
  intro I. unfold check_reentry.
  break_if; [exact I|].
  destruct (temporarily_closed (position_tracker w)) eqn:Htc; [|exact I].
  cbn [negb].
  destruct (3 <=? reentry_attempts (position_tracker w))%Z eqn:Hat; [exact I|].
  break_if; [exact I|].
  rewrite get_cached_data_invalidate.
  assert (Et : position_tracker (refreshed e w) = position_tracker w)
    by apply refreshed_tracker.
  break_if; [cbn [snd]; rewrite Et; exact I|].
  break_if; [cbn [snd]; rewrite Et; exact I|].
  break_if; [|cbn [snd]; rewrite Et; exact I].
  apply Z.leb_gt in Hat.
  set (w1 := track _ (refreshed e w)).
  assert (I1 : Inv (position_tracker w1)).
  { subst w1. cbn [track position_tracker]. rewrite Et.
    destruct I as (Ha & Hs & Hc & Hz & Hp').
    unfold Inv; cbn. rewrite Htc.
    split; [lia|]. split; [exact Hs|].
    split; [intros _; now apply Hc|]. split; [discriminate | exact Hp']. }
  destruct (calculate_quantity _ _) as [quantity|]; [|exact I1].
  break_if; [|exact I1].
  unfold open_position_market.
  destruct (quantity <=? 0) eqn:Hq; [exact I1|].
  destruct (open_price e <=? 0) eqn:Hp; [exact I1|].
  destruct (open_ok e); [|exact I1].
  apply leb_false_iff in Hq, Hp.
  unfold Inv; cbn. repeat split; try lia; try assumption; try discriminate.
Qed.

Lemma check_trailing_profit_Inv (e : Env) (w : World) :
  Inv (position_tracker w) ->
  Inv (position_tracker (snd (check_trailing_profit e w))).
Proof.
  intro I. unfold check_trailing_profit.
  break_if; [exact I|].
  destruct (side_empty (side (position_tracker w))
            || (size (position_tracker w) <=? 0)) eqn:Hside; [exact I|].
  break_if; [now apply check_reentry_Inv|].
  break_if; [exact I|].
  break_if; [exact I|].
  rewrite get_cached_data_invalidate.
  assert (Et : position_tracker (refreshed e w) = position_tracker w)
    by apply refreshed_tracker.
  destruct (snap_price (observed e w) <=? 0) eqn:Hp; [cbn [snd]; rewrite Et; exact I|].
  break_if; [cbn [snd]; rewrite Et; exact I|].
  set (w1 := if _ <? _ then _ else refreshed e w).
  assert (I1 : Inv (position_tracker w1)).
  { subst w1. break_if; cbn [track position_tracker]; rewrite Et; exact I. }
  assert (Hs1 : side (position_tracker w1) = side (position_tracker w)).
  { subst w1. break_if; cbn [track position_tracker]; now rewrite Et. }
  break_if; [exact I1|].
  break_if; [|exact I1].
  cbn [close_position_market].
  break_if; [|exact I1].
  apply orb_false_iff in Hside. destruct Hside as (Hne & _).
  apply leb_false_iff in Hp.
  destruct I1 as (Ha & Hs & Hc & Hz & Hp').
  rewrite Hs1 in Hs, Hp'.
  assert (Hnf : side (position_tracker w) <> Flat)
    by (intro E; rewrite E in Hne; discriminate).
  unfold Inv; cbn. rewrite Hs1.
  split; [lia|]. split; [exact Hs|]. split; [intros _; now split|].
  split; [discriminate | exact Hp'].
Qed.

Lemma follow_signal_Inv (os : OrderSide) (same opposite balance price : Q)
    (e : Env) (w : World) :
  Inv (position_tracker w) ->
  Inv (position_tracker (snd (follow_signal os same opposite balance price e w))).
Proof.
  intro I. unfold follow_signal.
  break_if; [exact I|].
  set (w1 := if _ <? _ then _ else _).
  assert (I1 : Inv (position_tracker w1)) by (subst w1; break_if; exact I).
  destruct (calculate_quantity _ _); [|exact I1].
  break_if; [|exact I1].
  now apply open_position_market_Inv.
Qed.

Lemma close_all_tracker (long_size short_size : Q) (e : Env) (w : World) :
  position_tracker (close_all long_size short_size e w) = position_tracker w.
Proof. unfold close_all. do 2 break_if; reflexivity. Qed.

Lemma flat_signal_Inv (long_size short_size : Q) (e : Env) (w : World) :
  Inv (position_tracker w) ->
  Inv (position_tracker (snd (flat_signal long_size short_size e w))).
Proof.
  intros (Ha & _). unfold flat_signal, Inv; cbn.
  rewrite close_all_tracker.
  repeat split; try lia; try congruence; intros; congruence.
Qed.

Lemma webhook_Inv (b : Body) (e : Env) (w : World) :
  Inv (position_tracker w) ->
  Inv (position_tracker (snd (webhook b e w))).
Proof.
  intro I. unfold webhook.
  destruct (body_dump b); [|exact I].
  break_if; [exact I|].
  destruct b as [|d|d mp prev]; try exact I.
  destruct (get_lower mp) as [market_position|]; [|exact I].
  destruct (get_lower prev); [|exact I].
  rewrite get_cached_data_invalidate.
  set (w1 := refreshed e _).
  assert (I1 : Inv (position_tracker w1)).
  { subst w1. rewrite refreshed_tracker. exact I. }
  break_if; [exact I1|].
  break_if; [now apply follow_signal_Inv|].
  break_if; [now apply follow_signal_Inv|].
  break_if; [|exact I1].
  now apply flat_signal_Inv.
Qed.

Lemma health_Inv (e1 e2 : Env) (w : World) :
  Inv (position_tracker w) -> Inv (position_tracker (health e1 e2 w)).
Proof.
  intro I. unfold health. break_if; [|exact I].
  pose proof (check_stop_loss_Inv e1 w I) as I1.
  destruct (check_stop_loss e1 w) as [[|] w1]; cbn [snd] in I1.
  - now apply check_trailing_profit_Inv.
  - exact I1.
Qed.

Lemma serve_Inv (r : Request) (w : World) :
  Inv (position_tracker w) -> Inv (position_tracker (serve r w)).
Proof.
  destruct r; cbn [serve]; intro I.
  - now apply webhook_Inv.
  - now apply health_Inv.
  - now apply check_stop_loss_Inv.
  - now apply check_trailing_profit_Inv.
  - now apply check_reentry_Inv.
Qed.

Lemma run_Inv (rs : list Request) (w : World) :
  Inv (position_tracker w) -> Inv (position_tracker (run rs w)).
Proof.
  revert w. induction rs as [|r rs IH]; intros w I; [exact I|].
  cbn [run fold_left]. apply IH. now apply serve_Inv.
Qed.

Lemma reachable_Inv (w : World) : reachable w -> Inv (position_tracker w).
Proof.
  intros (rs & ->). apply run_Inv, Inv_initial.
Qed.

Lemma reachable_serve (r : Request) (w : World) :
  reachable w -> reachable (serve r w).
Proof.
  intros (rs & ->). exists (rs ++ [r]).
  unfold run. now rewrite fold_left_app.
Qed.

(** ** Stop price *)




(** ** Stop-loss check *)

Lemma side_empty_false (sd : Side) : sd <> Flat -> side_empty sd = false.
Proof. destruct sd; [congruence | reflexivity | reflexivity]. Qed.

Lemma ticks_fixed (w : World) :
  (forall e1 e2, health e1 e2 w = w) -> forall es, ticks es w = w.
Proof.
  intros H es. induction es as [|[e1 e2] es IH]; [reflexivity|].
  cbn [ticks fold_left fst snd]. rewrite H. exact IH.
Qed.

(** C2. In the LOCKED phase (temporarily_closed true, side and size
    retained) with the signal active and the 0.5 s throttle elapsed, a
    snapshot with a positive price and zero venue size for the tracked side
    sends [check_stop_loss] into the manual-close branch: side, size and
    temporarily_closed are reset to their flat values and no order is sent.
    From the resulting state the re-entry check, the trailing check and any
    number of health ticks change nothing, and the health tick that ran the
    stop-loss check ends in that state without an opening order. *)
Theorem locked_stop_loss_reconciles (e : Env) (w : World)
    (Hactive : tradingview_active (position_tracker w) = true)
    (Hlocked : temporarily_closed (position_tracker w) = true)
    (Hside : side (position_tracker w) <> Flat)
    (Hsize : 0 < size (position_tracker w))
    (Hthrottle : 0.5 <= now e - last_check (position_tracker w))
    (Hprice : 0 < snap_price (observed e w))
    (Hvenue : venue_size (side (position_tracker w)) (observed e w) == 0) :
  let w' := snd (check_stop_loss e w) in
  fst (check_stop_loss e w) = Done
  /\ position_tracker w'
     = set_temporarily_closed
         (set_size (set_side (set_last_check (position_tracker w) (now e))
                      Flat) 0) false
  /\ side (position_tracker w') = Flat
  /\ size (position_tracker w') = 0
  /\ temporarily_closed (position_tracker w') = false
  /\ orders w' = orders w
  /\ (forall e', check_reentry e' w' = (Done, w'))
  /\ (forall e', check_trailing_profit e' w' = (Done, w'))
  /\ (forall e2, health e e2 w = w')
  /\ (forall es, ticks es w' = w').
Proof.
  assert (Hrun : check_stop_loss e w
                 = (Done, flatten (refreshed e
                      (track (fun t => set_last_check t (now e)) w)))).
  { unfold check_stop_loss.
    rewrite Hactive, (side_empty_false _ Hside). cbn [negb orb].
    apply leb_false_iff in Hsize as Hs1. rewrite Hs1.
    apply ltb_false_iff in Hthrottle as Ht1. rewrite Ht1.
    rewrite get_cached_data_invalidate, observed_track.
    apply leb_false_iff in Hprice as Hp1. rewrite Hp1.
    rewrite refreshed_tracker. cbn [track position_tracker set_last_check side size].
    apply eqb_true_iff in Hvenue. rewrite Hvenue.
    apply ltb_true_iff in Hsize as Hs2. rewrite Hs2. reflexivity. }
  rewrite Hrun. cbn [fst snd]. set (w' := flatten _).
  assert (Htr : position_tracker w'
                = set_temporarily_closed
                    (set_size (set_side (set_last_check (position_tracker w)
                                           (now e)) Flat) 0) false).
  { subst w'. unfold flatten. cbn [track position_tracker].
    rewrite refreshed_tracker. reflexivity. }
  assert (Hre : forall e', check_reentry e' w' = (Done, w')).
  { intro e'. unfold check_reentry. rewrite Htr. cbn. now rewrite Hactive. }
  assert (Htp : forall e', check_trailing_profit e' w' = (Done, w')).
  { intro e'. unfold check_trailing_profit. rewrite Htr. cbn.
    now rewrite Hactive. }
  assert (Hsl : forall e', check_stop_loss e' w' = (Done, w')).
  { intro e'. unfold check_stop_loss. rewrite Htr. cbn. now rewrite Hactive. }
  repeat split; try assumption; try (rewrite Htr; reflexivity).
  - subst w'. unfold flatten. cbn [track orders].
    now rewrite refreshed_orders.
  - intro e2. unfold health. rewrite Hactive, Hrun. now rewrite Htp.
  - apply ticks_fixed. intros e1 e2. unfold health.
    rewrite Htr. cbn [tradingview_active set_temporarily_closed set_size
                        set_side set_last_check].
    rewrite Hactive, Hsl. now rewrite Htp.
Qed.


Lemma reachable_locked_long : reachable locked_long.
Proof. now exists [open_long; TrailingCheck e_peak; TrailingCheck e_drop]. Qed.

Lemma locked_stop_loss_reconciles_witness :
  let w' := snd (check_stop_loss e_back locked_long) in
  temporarily_closed (position_tracker locked_long) = true
  /\ side (position_tracker locked_long) = Long
  /\ side (position_tracker w') = Flat
  /\ check_reentry e_back w' = (Done, w').
Proof.
  intro w'.
  assert (H := locked_stop_loss_reconciles e_back locked_long).
  destruct H as (_ & _ & Hs & _ & _ & _ & Hre & _).
  - vm_compute; reflexivity.
  - vm_compute; reflexivity.
  - vm_compute; discriminate.
  - vm_compute; reflexivity.
  - vm_compute; discriminate.
  - vm_compute; reflexivity.
  - vm_compute; reflexivity.
  - split; [vm_compute; reflexivity|].
    split; [vm_compute; reflexivity|].
    split; [exact Hs | apply Hre].
Defined.




(** ** Trailing profit *)



(** ** Re-entry *)




(** ** Flat signal *)

Lemma observed_with_last_webhook (e : Env) (l : LastWebhook) (w : World) :
  observed e (with_last_webhook l w) = observed e w.
Proof.
  unfold observed, get_cached_data, invalidate; cbn.
  destruct (cache_data (cache w)); [destruct (_ <? _)|]; reflexivity.
Qed.





(** ** Bounded re-entry *)







(** ** Scenarios of the specification, evaluated *)

Example scenario_open_long :
  let t := position_tracker (run [open_long] initial) in
  side t = Long /\ size t = 3840 /\ entry_price t = 1
  /\ stop_loss_price t == 0.9825
  /\ tradingview_active t = true.
Proof. vm_compute. repeat split. Qed.

Example scenario_locked_long :
  let t := position_tracker locked_long in
  temporarily_closed t = true /\ side t = Long
  /\ peak_profit_percent t == 0.01
  /\ reentry_price t = 0.99 /\ reentry_attempts t = 0%Z
  /\ orders locked_long = [mkOrder Buy 3840 false; mkOrder Sell 3840 true].
Proof. vm_compute. repeat split. Qed.

Example scenario_rejected_reentries :
  let t := position_tracker exhausted_long in
  temporarily_closed t = true /\ reentry_attempts t = 3%Z
  /\ length (orders exhausted_long) = 5%nat.
Proof. vm_compute. repeat split. Qed.

Example scenario_health_tick_while_locked :
  let w := health e_back e_back locked_long in
  side (position_tracker w) = Flat
  /\ temporarily_closed (position_tracker w) = false
  /\ orders w = orders locked_long.
Proof. vm_compute. repeat split. Qed.

(** * Further properties of the code *)

(** ** Market data cache *)

(** X1. After a read that had to fetch, a second read less than 100 ms
    later returns the stored snapshot, whatever the venue would answer by
    then, and leaves the state as it is. *)
Theorem cache_hit_after_fetch (e e' : Env) (w : World)
    (Hmiss : cache_data (cache w) = None
             \/ CACHE_TTL <= now_cache e - cache_time (cache w))
    (Hsoon : now_cache e' - now_cache e < CACHE_TTL) :
  let w1 := snd (get_cached_data e w) in
  fst (get_cached_data e w) = fetched e
  /\ get_cached_data e' w1 = (fetched e, w1).
Proof.
  cbn zeta.
  assert (Hfetch : get_cached_data e w
                   = (fetched e,
                      with_cache (mkCache (now_cache e) (Some (fetched e))) w)).
  { unfold get_cached_data.
    destruct (cache_data (cache w)) as [d|]; [|reflexivity].
    destruct Hmiss as [Hn|Hold]; [discriminate|].
    apply ltb_false_iff in Hold. now rewrite Hold. }
  rewrite Hfetch. cbn [fst snd]. split; [reflexivity|].
  unfold get_cached_data. cbn [with_cache cache cache_data cache_time].
  apply ltb_true_iff in Hsoon. now rewrite Hsoon.
Qed.

Lemma cache_hit_after_fetch_witness :
  fst (get_cached_data e_soon (snd (get_cached_data sample_env initial)))
  = fetched sample_env.
Proof.
  destruct (cache_hit_after_fetch sample_env e_soon initial) as (_ & H).
  - left. reflexivity.
  - vm_compute. reflexivity.
  - rewrite H. reflexivity.
Defined.

(** X2. Setting [cache['time']] to 0 forces a fetch only when the clock
    reads at least 0.1: then the read returns the venue's answers and
    stores them with the time of the read. With a clock below 0.1 and a
    snapshot in the cache, the stored snapshot is returned all the same. In
    both cases tracker, dedup record and order log are untouched. *)
Theorem invalidate_then_read (e : Env) (w : World) :
  (CACHE_TTL <= now_cache e ->
   get_cached_data e (invalidate w)
   = (fetched e, with_cache (mkCache (now_cache e) (Some (fetched e))) w))
  /\ (forall d, now_cache e < CACHE_TTL -> cache_data (cache w) = Some d ->
        get_cached_data e (invalidate w) = (d, invalidate w))
  /\ position_tracker (snd (get_cached_data e (invalidate w)))
     = position_tracker w
  /\ last_webhook (snd (get_cached_data e (invalidate w))) = last_webhook w
  /\ orders (snd (get_cached_data e (invalidate w))) = orders w.
Proof.
  split; [|split].
  - intro H. unfold get_cached_data, invalidate.
    cbn [with_cache cache cache_data cache_time].
    destruct (cache_data (cache w)); [|reflexivity].
    assert (E : (now_cache e - 0 <? CACHE_TTL) = false)
      by (apply ltb_false_iff; lra).
    now rewrite E.
  - intros d H Hd. unfold get_cached_data, invalidate.
    cbn [with_cache cache cache_data cache_time]. rewrite Hd.
    assert (E : (now_cache e - 0 <? CACHE_TTL) = true)
      by (apply ltb_true_iff; lra).
    now rewrite E.
  - fold (refreshed e w).
    now rewrite refreshed_tracker, refreshed_last_webhook, refreshed_orders.
Qed.

Lemma invalidate_then_read_witness :
  fst (get_cached_data e_peak (invalidate (run [open_long] initial)))
  = fetched e_peak.
Proof.
  destruct (invalidate_then_read e_peak (run [open_long] initial)) as (H & _).
  rewrite H; [reflexivity|]. vm_compute. discriminate.
Defined.

(** ** No arithmetic error on reachable states *)

Lemma calculate_quantity_defined (balance price : Q) :
  0 < price -> exists q, calculate_quantity balance price = Some q.
Proof.
  intro Hp. unfold calculate_quantity.
  destruct (_ <? _); [now eexists|].
  assert (E : (price =? 0) = false) by (apply eqb_false_iff; lra).
  rewrite E. now eexists.
Qed.

(** X3. In every state the program can reach, none of the three checks
    raises: a tracked side comes with a positive entry price, and a locked
    position with a positive re-entry price, so no division by zero occurs;
    a health tick therefore always runs both checks, and [/status] never
    answers 500. *)
Theorem checks_never_raise (w : World) (Hreach : reachable w) (e : Env) :
  fst (check_stop_loss e w) = Done
  /\ fst (check_trailing_profit e w) = Done
  /\ fst (check_reentry e w) = Done
  /\ (forall e2, health e e2 w
                 = if tradingview_active (position_tracker w)
                   then snd (check_trailing_profit e2
                               (snd (check_stop_loss e w)))
                   else w)
  /\ fst (status e w) <> None.
Proof.
  pose proof (reachable_Inv w Hreach) as (_ & Hs & Hc & _).
  assert (Hstop : fst (check_stop_loss e w) = Done).
  { unfold check_stop_loss.
    break_if; [reflexivity|].
    destruct (side_empty (side (position_tracker w))
              || (size (position_tracker w) <=? 0)) eqn:Hg; [reflexivity|].
    break_if; [reflexivity|].
    rewrite get_cached_data_invalidate.
    break_if; [reflexivity|]. break_if; [reflexivity|].
    break_if; [|reflexivity].
    rewrite refreshed_tracker.
    cbn [track position_tracker set_last_check entry_price side].
    apply orb_false_iff in Hg. destruct Hg as (Hne & _).
    assert (Hnf : side (position_tracker w) <> Flat)
      by (intro E; rewrite E in Hne; discriminate).
    destruct (Hs Hnf) as (He & _).
    assert (E0 : (entry_price (position_tracker w) =? 0) = false)
      by (apply eqb_false_iff; lra).
    rewrite E0. cbn [close_position_market]. now break_if. }
  assert (Hre : fst (check_reentry e w) = Done).
  { unfold check_reentry.
    break_if; [reflexivity|].
    destruct (temporarily_closed (position_tracker w)) eqn:Htc;
      [|reflexivity].
    cbn [negb]. break_if; [reflexivity|]. break_if; [reflexivity|].
    rewrite get_cached_data_invalidate.
    destruct (snap_price (observed e w) <=? 0) eqn:Hp; [reflexivity|].
    rewrite refreshed_tracker.
    destruct (Hc eq_refl) as (Hrp & Hnf). destruct (Hs Hnf) as (He & _).
    assert (E0 : (entry_price (position_tracker w) =? 0) = false)
      by (apply eqb_false_iff; lra).
    assert (E1 : (reentry_price (position_tracker w) =? 0) = false)
      by (apply eqb_false_iff; lra).
    rewrite E0, E1. cbn [orb].
    break_if; [|reflexivity].
    apply leb_false_iff in Hp.
    destruct (calculate_quantity_defined (snap_balance (observed e w))
                (snap_price (observed e w)) Hp) as (q & Hq).
    rewrite Hq. break_if; [|reflexivity].
    destruct (open_position_market _ q e _) as [[|] w2]; reflexivity. }
  assert (Htrail : fst (check_trailing_profit e w) = Done).
  { unfold check_trailing_profit.
    break_if; [reflexivity|].
    destruct (side_empty (side (position_tracker w))
              || (size (position_tracker w) <=? 0)) eqn:Hg; [reflexivity|].
    break_if; [exact Hre|].
    break_if; [reflexivity|]. break_if; [reflexivity|].
    rewrite get_cached_data_invalidate.
    break_if; [reflexivity|].
    rewrite refreshed_tracker.
    apply orb_false_iff in Hg. destruct Hg as (Hne & _).
    assert (Hnf : side (position_tracker w) <> Flat)
      by (intro E; rewrite E in Hne; discriminate).
    destruct (Hs Hnf) as (He & _).
    assert (E0 : (entry_price (position_tracker w) =? 0) = false)
      by (apply eqb_false_iff; lra).
    rewrite E0.
    break_if; [reflexivity|]. break_if; [|reflexivity].
    cbn [close_position_market]. now break_if. }
  split; [exact Hstop|]. split; [exact Htrail|]. split; [exact Hre|].
  split.
  - intro e2. unfold health.
    destruct (tradingview_active (position_tracker w)); [|reflexivity].
    destruct (check_stop_loss e w) as [[|] w1]; cbn [fst snd] in *;
      [reflexivity | discriminate].
  - unfold status.
    destruct (get_cached_data e w) as [snap w1] eqn:Hg.
    assert (Et : position_tracker w1 = position_tracker w).
    { unfold get_cached_data in Hg.
      destruct (cache_data (cache w)); [destruct (_ <? _)|];
        inversion Hg; reflexivity. }
    rewrite Et.
    destruct (side (position_tracker w)) eqn:Hsd; cbn [side_empty];
      [discriminate| |].
    + destruct (Hs ltac:(discriminate)) as (He & _).
      assert (E0 : (entry_price (position_tracker w) =? 0) = false)
        by (apply eqb_false_iff; lra).
      rewrite E0. discriminate.
    + destruct (Hs ltac:(discriminate)) as (He & _).
      assert (E0 : (entry_price (position_tracker w) =? 0) = false)
        by (apply eqb_false_iff; lra).
      rewrite E0. discriminate.
Qed.

Lemma checks_never_raise_witness :
  fst (check_reentry e_back locked_long) = Done
  /\ fst (status e_back locked_long) <> None.
Proof.
  destruct (checks_never_raise locked_long reachable_locked_long e_back)
    as (_ & _ & H & _ & Hst).
  split; assumption.
Defined.

(** ** Peak and throttle *)

Lemma no_drawdown_at_peak (p : Q) :
  (TRAILING_PROFIT_DROP <=? (if 0 <? p then (p - p) / p else 0)) = false.
Proof.
  apply leb_false_iff. unfold TRAILING_PROFIT_DROP.
  destruct (0 <? p).
  - assert (E : (p - p) / p == 0) by (unfold Qdiv; ring). rewrite E.
    reflexivity.
  - reflexivity.
Qed.

Lemma trailing_peak_cases (e : Env) (w : World) :
  temporarily_closed (position_tracker w) = false ->
  let w' := snd (check_trailing_profit e w) in
  let pnl := directional (side (position_tracker w))
               (snap_price (observed e w))
               (entry_price (position_tracker w)) in
  peak_profit_percent (position_tracker w')
  = peak_profit_percent (position_tracker w)
  \/ (peak_profit_percent (position_tracker w) < pnl
      /\ peak_profit_percent (position_tracker w') = pnl
      /\ orders w' = orders w
      /\ temporarily_closed (position_tracker w') = false).
Proof.
  intro Hopen. cbn zeta. unfold check_trailing_profit. rewrite Hopen.
  break_if; [now left|]. break_if; [now left|].
  break_if; [now left|]. break_if; [now left|].
  rewrite get_cached_data_invalidate.
  break_if; [left; cbn [snd]; now rewrite refreshed_tracker|].
  break_if; [left; cbn [snd]; now rewrite refreshed_tracker|].
  rewrite !refreshed_tracker.
  destruct (peak_profit_percent (position_tracker w)
            <? directional (side (position_tracker w))
                 (snap_price (observed e w))
                 (entry_price (position_tracker w))) eqn:Hraise.
  - right. apply ltb_true_iff in Hraise. split; [exact Hraise|].
    cbn [track position_tracker set_peak_profit_percent peak_profit_percent].
    rewrite no_drawdown_at_peak.
    break_if; cbn [snd track position_tracker set_peak_profit_percent
                     peak_profit_percent orders temporarily_closed];
      rewrite refreshed_tracker, refreshed_orders; now repeat split.
  - left. rewrite refreshed_tracker.
    break_if; [cbn [snd]; now rewrite refreshed_tracker|].
    break_if; [|cbn [snd]; now rewrite refreshed_tracker].
    cbn [close_position_market].
    break_if; cbn [snd track send position_tracker
                     set_temporarily_closed set_reentry_price
                     set_reentry_attempts set_last_trailing_action
                     peak_profit_percent];
      now rewrite refreshed_tracker.
Qed.

Lemma check_stop_loss_keeps_peak (e : Env) (w : World) :
  peak_profit_percent (position_tracker (snd (check_stop_loss e w)))
  = peak_profit_percent (position_tracker w).
Proof.
  unfold check_stop_loss.
  repeat (break_if; [reflexivity|]).
  rewrite get_cached_data_invalidate.
  assert (E : peak_profit_percent
                (position_tracker
                   (refreshed e (track (fun t => set_last_check t (now e)) w)))
              = peak_profit_percent (position_tracker w))
    by now rewrite refreshed_tracker.
  break_if; [exact E|]. break_if; [exact E|].
  break_if; [|exact E]. break_if; [exact E|].
  cbn [close_position_market]. break_if; exact E.
Qed.

(** X4. While the position is OPEN the trailing check never lowers
    [peak_profit_percent]; a check that raises the peak sets it to the
    current unleveraged profit, sends no order and leaves the position
    open. The stop-loss check never writes the peak. *)
Theorem peak_never_decreases_while_open (e : Env) (w : World)
    (Hopen : temporarily_closed (position_tracker w) = false) :
  let w' := snd (check_trailing_profit e w) in
  peak_profit_percent (position_tracker w)
  <= peak_profit_percent (position_tracker w')
  /\ (peak_profit_percent (position_tracker w)
      < peak_profit_percent (position_tracker w') ->
      peak_profit_percent (position_tracker w')
      = directional (side (position_tracker w)) (snap_price (observed e w))
          (entry_price (position_tracker w))
      /\ orders w' = orders w
      /\ temporarily_closed (position_tracker w') = false)
  /\ peak_profit_percent (position_tracker (snd (check_stop_loss e w)))
     = peak_profit_percent (position_tracker w).
Proof.
  cbn zeta.
  destruct (trailing_peak_cases e w Hopen) as [E|(Hlt & Hp & Ho & Hc)].
  - rewrite E. split; [apply Qle_refl|].
    split; [|apply check_stop_loss_keeps_peak].
    intro H. exfalso. exact (Qlt_irrefl _ H).
  - rewrite Hp. split; [now apply Qlt_le_weak|].
    split; [|apply check_stop_loss_keeps_peak].
    intros _. now repeat split.
Qed.

Lemma peak_never_decreases_while_open_witness :
  peak_profit_percent (position_tracker (run [open_long] initial))
  < peak_profit_percent (position_tracker peaked_long)
  /\ orders peaked_long = orders (run [open_long] initial).
Proof.
  destruct (peak_never_decreases_while_open e_peak (run [open_long] initial))
    as (_ & H & _).
  - vm_compute. reflexivity.
  - destruct H as (_ & Ho & _).
    + vm_compute. reflexivity.
    + split; [vm_compute; reflexivity | exact Ho].
Defined.

Lemma trailing_returns_when_throttled (e : Env) (w : World) :
  temporarily_closed (position_tracker w) = false ->
  now e - last_check (position_tracker w) < 0.5 ->
  check_trailing_profit e w = (Done, w).
Proof.
  intros Hopen Ht. unfold check_trailing_profit. rewrite Hopen.
  apply ltb_true_iff in Ht. rewrite Ht.
  break_if; [reflexivity|]. now break_if.
Qed.

Lemma trailing_returns_when_flat (e : Env) (w : World) :
  side (position_tracker w) = Flat -> check_trailing_profit e w = (Done, w).
Proof.
  intro Hf. unfold check_trailing_profit. rewrite Hf. cbn [side_empty orb].
  now break_if.
Qed.

Ltac simpl_pair := cbv beta iota; cbn [fst snd].

(** X5. On a health tick of an OPEN position whose stop-loss check is not
    throttled, the trailing check of the same tick does nothing unless at
    least 0.5 s pass between the two clock reads: the stop-loss check has
    just stamped [last_check], or has flattened the tracker. The tick then
    ends in the state the stop-loss check produced. *)
Theorem trailing_throttled_by_stop_loss (e1 e2 : Env) (w : World)
    (Hactive : tradingview_active (position_tracker w) = true)
    (Hside : side (position_tracker w) <> Flat)
    (Hsize : 0 < size (position_tracker w))
    (Hopen : temporarily_closed (position_tracker w) = false)
    (Hthrottle : 0.5 <= now e1 - last_check (position_tracker w))
    (Hclose : now e2 - now e1 < 0.5) :
  health e1 e2 w = snd (check_stop_loss e1 w)
  /\ last_check (position_tracker (health e1 e2 w)) = now e1.
Proof.
  unfold health. rewrite Hactive. unfold check_stop_loss.
  rewrite Hactive, (side_empty_false _ Hside). cbn [negb orb].
  apply leb_false_iff in Hsize. rewrite Hsize.
  apply ltb_false_iff in Hthrottle. rewrite Hthrottle.
  rewrite get_cached_data_invalidate.
  set (w1 := refreshed e1 (track (fun t => set_last_check t (now e1)) w)).
  assert (Et : position_tracker w1
               = set_last_check (position_tracker w) (now e1))
    by (subst w1; now rewrite refreshed_tracker).
  assert (Hw1 : check_trailing_profit e2 w1 = (Done, w1)).
  { apply trailing_returns_when_throttled; rewrite Et; assumption. }
  assert (Hfl : forall w2, position_tracker w2 = position_tracker w1 ->
                  check_trailing_profit e2 (flatten w2) = (Done, flatten w2)
                  /\ last_check (position_tracker (flatten w2)) = now e1).
  { intros w2 E. split; [now apply trailing_returns_when_flat|].
    cbn. now rewrite E, Et. }
  break_if; [simpl_pair; rewrite Hw1; simpl_pair; now rewrite Et|].
  break_if; [simpl_pair; destruct (Hfl w1 eq_refl) as (H1 & H2);
             rewrite H1; simpl_pair; now split|].
  break_if; [|simpl_pair; rewrite Hw1; simpl_pair; now rewrite Et].
  break_if; [simpl_pair; now rewrite Et|].
  cbn [close_position_market].
  break_if; simpl_pair.
  - destruct (Hfl (send (mkOrder (close_side_of (side (position_tracker w1)))
                           (Py.int (size (position_tracker w1))) true) w1)
                eq_refl) as (H1 & H2).
    rewrite H1. simpl_pair. now split.
  - rewrite trailing_returns_when_throttled.
    + cbn [snd send position_tracker]. now rewrite Et.
    + cbn [send position_tracker]. now rewrite Et.
    + cbn [send position_tracker]. now rewrite Et.
Qed.

Lemma trailing_throttled_by_stop_loss_witness :
  health e_retrace e_retrace peaked_long
  = snd (check_stop_loss e_retrace peaked_long)
  /\ temporarily_closed
       (position_tracker (health e_retrace e_retrace peaked_long)) = false.
Proof.
  destruct (trailing_throttled_by_stop_loss e_retrace e_retrace peaked_long)
    as (H & _).
  - vm_compute; reflexivity.
  - vm_compute; discriminate.
  - vm_compute; reflexivity.
  - vm_compute; reflexivity.
  - vm_compute; discriminate.
  - vm_compute; reflexivity.
  - split; [exact H|]. rewrite H. vm_compute. reflexivity.
Defined.

(** ** Stale peak *)

(** The trailing check on an open position whose drawdown has reached the
    threshold, stated on the tracker alone. *)
Lemma trailing_closes (e : Env) (w : World)
    (Hactive : tradingview_active (position_tracker w) = true)
    (Hside : side (position_tracker w) <> Flat)
    (Hsize : 0 < size (position_tracker w))
    (Hopen : temporarily_closed (position_tracker w) = false)
    (Hthrottle : 0.5 <= now e - last_check (position_tracker w))
    (Hcool : 3 <= now e - last_trailing_action (position_tracker w))
    (Hprice : 0 < snap_price (observed e w))
    (Hentry : 0 < entry_price (position_tracker w))
    (Hpeak : MIN_PROFIT_FOR_TRAILING <= peak_profit_percent (position_tracker w))
    (Hpnl : directional (side (position_tracker w))
              (snap_price (observed e w)) (entry_price (position_tracker w))
            <= 0.75 * peak_profit_percent (position_tracker w)) :
  check_trailing_profit e w
  = let w2 := send (mkOrder (close_side_of (side (position_tracker w)))
                      (Py.int (size (position_tracker w))) true)
                (refreshed e w) in
    if close_ok e then
      (Done,
       track (fun x => set_last_trailing_action x (now e))
         (track (fun x => set_reentry_attempts x 0%Z)
            (track (fun x => set_reentry_price x (snap_price (observed e w)))
               (track (fun x => set_temporarily_closed x true) w2))))
    else (Done, w2).
Proof.
  set (t := position_tracker w) in *.
  set (price := snap_price (observed e w)) in *.
  set (peak := peak_profit_percent t) in *.
  set (pnl := directional (side t) price (entry_price t)) in *.
  assert (Hpos : 0 < peak) by (unfold MIN_PROFIT_FOR_TRAILING in Hpeak; lra).
  assert (Hle : pnl <= peak) by lra.
  assert (Hdrop : TRAILING_PROFIT_DROP <= (peak - pnl) / peak).
  { apply Qle_shift_div_l; [exact Hpos|]. unfold TRAILING_PROFIT_DROP. lra. }
  unfold check_trailing_profit. fold t.
  rewrite Hactive, (side_empty_false _ Hside), Hopen. cbn [negb orb].
  apply leb_false_iff in Hsize. rewrite Hsize.
  apply ltb_false_iff in Hthrottle. rewrite Hthrottle.
  apply ltb_false_iff in Hcool. rewrite Hcool.
  rewrite get_cached_data_invalidate.
  apply leb_false_iff in Hprice. fold price. rewrite Hprice.
  rewrite refreshed_tracker. fold t.
  assert (He : (entry_price t =? 0) = false) by (apply eqb_false_iff; lra).
  rewrite He. fold pnl. fold peak.
  apply ltb_false_iff in Hle. rewrite Hle.
  rewrite refreshed_tracker. fold t. fold peak.
  apply ltb_false_iff in Hpeak. rewrite Hpeak.
  apply ltb_true_iff in Hpos. rewrite Hpos.
  apply leb_true_iff in Hdrop. rewrite Hdrop.
  unfold close_position_market. rewrite refreshed_tracker. reflexivity.
Qed.

(** X6. [open_position_market] does not reset [peak_profit_percent]. When a
    position is opened while a peak of at least 0.008 is still stored from
    an earlier position, the first trailing check that is neither throttled
    nor in cooldown and sees the new position without profit sends a
    closing order for it; if the venue accepts, the new position is
    locked. *)
Theorem stale_peak_closes_new_position (os : OrderSide) (sz : Q)
    (e e2 : Env) (w w1 : World)
    (Hopened : open_position_market os sz e w = (true, w1))
    (Hactive : tradingview_active (position_tracker w) = true)
    (Hpeak : MIN_PROFIT_FOR_TRAILING <= peak_profit_percent (position_tracker w))
    (Hthrottle : 0.5 <= now e2 - last_check (position_tracker w))
    (Hcool : 3 <= now e2 - now_open e)
    (Hprice : 0 < snap_price (observed e2 w1))
    (Hflat : directional (match os with Buy => Long | Sell => Short end)
               (snap_price (observed e2 w1)) (open_price e) <= 0) :
  let w' := snd (check_trailing_profit e2 w1) in
  peak_profit_percent (position_tracker w1)
  = peak_profit_percent (position_tracker w)
  /\ orders w'
     = orders w
       ++ [mkOrder os (Py.int sz) false;
           mkOrder (match os with Buy => Sell | Sell => Buy end)
             (Py.int sz) true]
  /\ (close_ok e2 = true ->
      temporarily_closed (position_tracker w') = true
      /\ reentry_price (position_tracker w') = snap_price (observed e2 w1)).
Proof.
  cbn zeta. revert Hopened. unfold open_position_market.
  destruct (sz <=? 0) eqn:Hsz; [discriminate|].
  destruct (open_price e <=? 0) eqn:Hop; [discriminate|].
  destruct (open_ok e); [|discriminate].
  intros [= <-].
  apply leb_false_iff in Hsz, Hop.
  set (w1 := record_open os sz (open_price e) e _) in *.
  assert (Et : position_tracker w1
               = mkTracker (open_price e)
                   (match os with Buy => Long | Sell => Short end) sz
                   (stop_price_for
                      (match os with Buy => Long | Sell => Short end)
                      (open_price e))
                   (last_check (position_tracker w))
                   (peak_profit_percent (position_tracker w)) false
                   (reentry_price (position_tracker w)) 0%Z (now_open e)
                   (tradingview_active (position_tracker w))
                   (tv_position (position_tracker w))) by reflexivity.
  assert (Eo : orders w1 = orders w ++ [mkOrder os (Py.int sz) false])
    by reflexivity.
  assert (Hrun := trailing_closes e2 w1).
  rewrite Et in Hrun.
  cbn [tradingview_active side size temporarily_closed last_check
       last_trailing_action entry_price peak_profit_percent] in Hrun.
  rewrite Hrun; clear Hrun.
  - split; [now rewrite Et|]. cbn zeta.
    split.
    + destruct (close_ok e2); cbn [snd track send orders];
        rewrite refreshed_orders, Eo, <- app_assoc;
        destruct os; reflexivity.
    + intros ->. cbn. now split.
  - exact Hactive.
  - destruct os; discriminate.
  - exact Hsz.
  - reflexivity.
  - exact Hthrottle.
  - exact Hcool.
  - exact Hprice.
  - exact Hop.
  - exact Hpeak.
  - unfold MIN_PROFIT_FOR_TRAILING in Hpeak. lra.
Qed.

Lemma stale_peak_closes_new_position_witness :
  let w1 := snd (open_position_market Buy 3840 e_again stopped_long) in
  side (position_tracker stopped_long) = Flat
  /\ temporarily_closed
       (position_tracker (snd (check_trailing_profit e_first_check w1)))
     = true.
Proof.
  intro w1.
  destruct (stale_peak_closes_new_position Buy 3840 e_again e_first_check
              stopped_long w1) as (_ & _ & H).
  - vm_compute; reflexivity.
  - vm_compute; reflexivity.
  - vm_compute; discriminate.
  - vm_compute; discriminate.
  - vm_compute; discriminate.
  - vm_compute; reflexivity.
  - vm_compute; discriminate.
  - split; [vm_compute; reflexivity|]. now destruct (H eq_refl).
Defined.

(** ** Failed re-entry attempts *)



(** ** Invalid market data *)

(** X8. When the snapshot carries a price that is not positive (the sentinel
    of a failed fetch), no order is sent by any of the three checks nor by
    the webhook: the trailing and re-entry checks leave the tracker as it
    is, the stop-loss check stamps at most [last_check], and the webhook
    never answers ok and changes [tv_position] at most. *)
Theorem invalid_price_is_noop (e : Env) (w : World)
    (Hprice : snap_price (observed e w) <= 0) :
  let t := position_tracker w in
  (position_tracker (snd (check_trailing_profit e w)) = t
   /\ orders (snd (check_trailing_profit e w)) = orders w)
  /\ (position_tracker (snd (check_reentry e w)) = t
      /\ orders (snd (check_reentry e w)) = orders w)
  /\ ((position_tracker (snd (check_stop_loss e w)) = t
       \/ position_tracker (snd (check_stop_loss e w))
          = set_last_check t (now e))
      /\ orders (snd (check_stop_loss e w)) = orders w)
  /\ (forall b,
        fst (webhook b e w) <> StatusOk
        /\ orders (snd (webhook b e w)) = orders w
        /\ (position_tracker (snd (webhook b e w)) = t
            \/ exists s, position_tracker (snd (webhook b e w))
                         = set_tv_position t s)).
Proof.
  cbn zeta. apply leb_true_iff in Hprice.
  assert (Hre : position_tracker (snd (check_reentry e w)) = position_tracker w
                /\ orders (snd (check_reentry e w)) = orders w).
  { unfold check_reentry.
    repeat (break_if; [now split|]).
    rewrite get_cached_data_invalidate, Hprice. cbn [snd].
    now rewrite refreshed_tracker, refreshed_orders. }
  split; [|split; [exact Hre|split]].
  - unfold check_trailing_profit.
    break_if; [now split|]. break_if; [now split|].
    break_if; [exact Hre|].
    break_if; [now split|]. break_if; [now split|].
    rewrite get_cached_data_invalidate, Hprice. cbn [snd].
    now rewrite refreshed_tracker, refreshed_orders.
  - unfold check_stop_loss.
    break_if; [split; [now left | reflexivity]|].
    break_if; [split; [now left | reflexivity]|].
    break_if; [split; [now left | reflexivity]|].
    rewrite get_cached_data_invalidate, observed_track, Hprice. cbn [snd].
    rewrite refreshed_tracker, refreshed_orders.
    split; [now right | reflexivity].
  - intro b. unfold webhook.
    destruct (body_dump b) as [data_str|];
      [|split; [discriminate | split; [reflexivity | now left]]].
    break_if; [split; [discriminate | split; [reflexivity | now left]]|].
    destruct b as [|d|d mp prev];
      try (split; [discriminate | split; [reflexivity | now left]]).
    destruct (get_lower mp) as [market_position|];
      [|split; [discriminate | split; [reflexivity | now left]]].
    destruct (get_lower prev);
      [|split; [discriminate | split; [reflexivity | now left]]].
    rewrite get_cached_data_invalidate, observed_track,
      observed_with_last_webhook, Hprice, orb_true_r.
    cbn [fst snd]. rewrite refreshed_tracker, refreshed_orders.
    split; [discriminate|]. split; [reflexivity|].
    right. now exists market_position.
Qed.

Lemma invalid_price_is_noop_witness :
  position_tracker (snd (check_reentry e_no_price locked_long))
  = position_tracker locked_long
  /\ fst (webhook (stance_body "flat") e_no_price locked_long) <> StatusOk.
Proof.
  destruct (invalid_price_is_noop e_no_price locked_long) as (_ & H & _ & Hw).
  - vm_compute; discriminate.
  - split; [apply H | apply Hw].
Defined.

(** ** Webhook: dedup record and unreadable payloads *)

Lemma open_position_market_last_webhook (os : OrderSide) (sz : Q) (e : Env)
    (w : World) :
  last_webhook (snd (open_position_market os sz e w)) = last_webhook w.
Proof.
  unfold open_position_market.
  break_if; [reflexivity|]. break_if; [reflexivity|]. now break_if.
Qed.

Lemma follow_signal_last_webhook (os : OrderSide) (same opposite balance
    price : Q) (e : Env) (w : World) :
  last_webhook (snd (follow_signal os same opposite balance price e w))
  = last_webhook w.
Proof.
  unfold follow_signal. break_if; [reflexivity|].
  set (w1 := if _ <? _ then _ else _).
  assert (E : last_webhook w1 = last_webhook w)
    by (subst w1; now break_if).
  destruct (calculate_quantity _ _); [|exact E].
  break_if; [|exact E].
  cbn [snd]. now rewrite open_position_market_last_webhook.
Qed.

Lemma flat_signal_last_webhook (long_size short_size : Q) (e : Env)
    (w : World) :
  last_webhook (snd (flat_signal long_size short_size e w)) = last_webhook w.
Proof.
  unfold flat_signal, flatten, close_all. cbn [snd track last_webhook].
  do 2 break_if; reflexivity.
Qed.

Lemma webhook_records (b : Body) (e : Env) (w : World) (d : string) :
  body_dump b = Some d ->
  is_duplicate (now e) d w = false ->
  last_webhook (snd (webhook b e w)) = mkLastWebhook (now e) (Some d).
Proof.
  intros Hd Hnew. unfold webhook. rewrite Hd, Hnew.
  destruct b as [|d'|d' mp prev]; [discriminate | reflexivity |].
  destruct (get_lower mp); [|reflexivity].
  destruct (get_lower prev); [|reflexivity].
  rewrite get_cached_data_invalidate.
  set (w1 := refreshed e _).
  assert (E : last_webhook w1 = mkLastWebhook (now e) (Some d))
    by (subst w1; now rewrite refreshed_last_webhook).
  break_if; [exact E|].
  break_if; [now rewrite follow_signal_last_webhook|].
  break_if; [now rewrite follow_signal_last_webhook|].
  break_if; [now rewrite flat_signal_last_webhook | exact E].
Qed.

(** X9. Every request that is not a duplicate and whose body can be
    serialized is recorded with its arrival time, whether it is then
    answered ok or error; the same body arriving again less than 2 seconds
    later is answered duplicate and changes nothing. *)
Theorem replay_is_absorbed (b : Body) (e e' : Env) (w : World) (d : string)
    (Hdump : body_dump b = Some d)
    (Hnew : is_duplicate (now e) d w = false)
    (Hsoon : now e' - now e < 2) :
  let w1 := snd (webhook b e w) in
  last_webhook w1 = mkLastWebhook (now e) (Some d)
  /\ webhook b e' w1 = (StatusDuplicate, w1).
Proof.
  cbn zeta.
  pose proof (webhook_records b e w d Hdump Hnew) as Hrec.
  split; [exact Hrec|].
  unfold webhook at 1. rewrite Hdump. unfold is_duplicate. rewrite Hrec.
  cbn [lw_time lw_data].
  apply ltb_true_iff in Hsoon. now rewrite Hsoon, String.eqb_refl.
Qed.

Lemma replay_is_absorbed_witness :
  let w1 := snd (webhook (stance_body "flat") e_no_balance locked_long) in
  fst (webhook (stance_body "flat") e_no_balance locked_long) = StatusError
  /\ webhook (stance_body "flat") e_flat w1 = (StatusDuplicate, w1).
Proof.
  intro w1.
  destruct (replay_is_absorbed (stance_body "flat") e_no_balance e_flat
              locked_long (dumps_stance "flat")) as (_ & H).
  - reflexivity.
  - vm_compute; reflexivity.
  - vm_compute; reflexivity.
  - split; [vm_compute; reflexivity | exact H].
Defined.

(** X10. A body that cannot be parsed at all is answered with an error and
    changes nothing. A body that is not a JSON object, or whose
    [marketPosition] or [prevMarketPosition] is not a string, is answered
    with an error as well, yet it is entered in the dedup record first;
    tracker, cache and order log stay as they were. *)
Theorem unreadable_payload (e : Env) (w : World) :
  webhook Malformed e w = (StatusError, w)
  /\ (forall b d,
        body_dump b = Some d ->
        is_duplicate (now e) d w = false ->
        (b = NotDict d
         \/ exists mp prev, b = Dict d mp prev
                            /\ (mp = JOther \/ prev = JOther)) ->
        webhook b e w
        = (StatusError,
           with_last_webhook (mkLastWebhook (now e) (Some d)) w)).
Proof.
  split; [reflexivity|].
  intros b d Hd Hnew Hbad. unfold webhook. rewrite Hd, Hnew.
  destruct Hbad as [->|(mp & prev & -> & [->| ->])].
  - reflexivity.
  - reflexivity.
  - cbn [get_lower]. now destruct (get_lower mp).
Qed.

Lemma unreadable_payload_witness :
  webhook (NotDict "[]") e_flat locked_long
  = (StatusError,
     with_last_webhook (mkLastWebhook (now e_flat) (Some "[]"%string))
       locked_long).
Proof.
  destruct (unreadable_payload e_flat locked_long) as (_ & H).
  apply H.
  - reflexivity.
  - vm_compute; reflexivity.
  - now left.
Defined.

(** ** Webhook: dispatch on the stance *)











(** ** Order log *)

Lemma appended_refl (n : nat) (w w' : World) :
  orders w' = orders w -> appended n w w'.
Proof.
  intro E. exists []. rewrite app_nil_r.
  split; [exact E|]. split; [cbn; lia | constructor].
Qed.

Lemma appended_trans (n m : nat) (w w1 w2 : World) :
  appended n w w1 -> appended m w1 w2 -> appended (n + m) w w2.
Proof.
  intros (l1 & E1 & L1 & F1) (l2 & E2 & L2 & F2). exists (l1 ++ l2).
  split; [now rewrite E2, E1, app_assoc|].
  split; [rewrite length_app; lia | now apply Forall_app].
Qed.

Lemma appended_weaken (n m : nat) (w w' : World) :
  (n <= m)%nat -> appended n w w' -> appended m w w'.
Proof.
  intros Hle (l & E & L & F). exists l. split; [exact E|].
  split; [lia | exact F].
Qed.

Lemma appended_send (o : Order) (w w1 w' : World) :
  sound_order o -> orders w1 = orders w ->
  orders w' = orders (send o w1) -> appended 1 w w'.
Proof.
  intros Ho E1 E. exists [o]. split; [rewrite E; cbn; now rewrite E1|].
  split; [cbn; lia | now constructor].
Qed.

Lemma closing_is_sound (os : OrderSide) (n : Z) : sound_order (mkOrder os n true).
Proof. intro H. discriminate. Qed.

Lemma int_inject_Z (n : Z) : Py.int (inject_Z n) = n.
Proof.
  unfold Py.int. destruct (Qle_bool 0 (inject_Z n));
    [apply Qfloor_Z | apply Qceiling_Z].
Qed.

Lemma calculate_quantity_integer (balance price q : Q) :
  calculate_quantity balance price = Some q -> exists n, q = inject_Z n.
Proof.
  unfold calculate_quantity.
  destruct (_ <? _); [intros [= <-]; now exists 0%Z|].
  destruct (_ =? _); [discriminate|].
  intros [= <-]. now eexists.
Qed.

Lemma open_position_market_appended (os : OrderSide) (n : Z) (e : Env)
    (w : World) :
  appended 1 w (snd (open_position_market os (inject_Z n) e w)).
Proof.
  unfold open_position_market.
  destruct (inject_Z n <=? 0) eqn:Hn; [now apply appended_refl|].
  break_if; [now apply appended_refl|].
  apply leb_false_iff in Hn.
  assert (Hn' : (0 < n)%Z)
    by (unfold Qlt in Hn; cbn [Qnum Qden inject_Z] in Hn; lia).
  assert (Hs : sound_order (mkOrder os (Py.int (inject_Z n)) false))
    by (intros _; cbn [order_size]; rewrite int_inject_Z; lia).
  destruct (open_ok e);
    now apply (appended_send (mkOrder os (Py.int (inject_Z n)) false) w w).
Qed.

Lemma check_stop_loss_appended (e : Env) (w : World) :
  appended 1 w (snd (check_stop_loss e w)).
Proof.
  unfold check_stop_loss.
  repeat (break_if; [now apply appended_refl|]).
  rewrite get_cached_data_invalidate.
  set (w1 := refreshed e _).
  assert (Eo : orders w1 = orders w)
    by (subst w1; now rewrite refreshed_orders).
  break_if; [now apply appended_refl|].
  break_if; [now apply appended_refl|].
  break_if; [|now apply appended_refl].
  break_if; [now apply appended_refl|].
  cbn [close_position_market].
  break_if; eapply appended_send; try exact Eo; try reflexivity;
    apply closing_is_sound.
Qed.

Lemma check_reentry_appended (e : Env) (w : World) :
  appended 1 w (snd (check_reentry e w)).
Proof.
  unfold check_reentry.
  repeat (break_if; [now apply appended_refl|]).
  rewrite get_cached_data_invalidate.
  assert (Eo : orders (refreshed e w) = orders w) by apply refreshed_orders.
  break_if; [now apply appended_refl|].
  break_if; [now apply appended_refl|].
  break_if; [|now apply appended_refl].
  destruct (calculate_quantity _ _) as [q|] eqn:Hq;
    [|now apply appended_refl].
  break_if; [|now apply appended_refl].
  destruct (calculate_quantity_integer _ _ _ Hq) as (n & ->).
  set (w1 := track _ (refreshed e w)).
  pose proof (open_position_market_appended
                (match side (position_tracker (refreshed e w)) with
                 | Long => Buy | _ => Sell end) n e w1) as H.
  destruct (open_position_market _ (inject_Z n) e w1) as [[|] w2];
    cbn [snd] in *; destruct H as (l & E & L & F); exists l;
    (split; [cbn [track orders]; rewrite E; subst w1; cbn [track orders];
             now rewrite Eo|]); now split.
Qed.

Lemma check_trailing_profit_appended (e : Env) (w : World) :
  appended 1 w (snd (check_trailing_profit e w)).
Proof.
  unfold check_trailing_profit.
  break_if; [now apply appended_refl|].
  break_if; [now apply appended_refl|].
  break_if; [apply check_reentry_appended|].
  break_if; [now apply appended_refl|].
  break_if; [now apply appended_refl|].
  rewrite get_cached_data_invalidate.
  assert (Eo : orders (refreshed e w) = orders w) by apply refreshed_orders.
  break_if; [now apply appended_refl|].
  break_if; [now apply appended_refl|].
  set (w1 := if _ <? _ then _ else refreshed e w).
  assert (Eo1 : orders w1 = orders w) by (subst w1; now break_if).
  break_if; [now apply appended_refl|].
  break_if; [|now apply appended_refl].
  cbn [close_position_market].
  break_if; eapply appended_send; try exact Eo1; try reflexivity;
    apply closing_is_sound.
Qed.

Lemma follow_signal_appended (os : OrderSide) (same opposite balance
    price : Q) (e : Env) (w : World) :
  appended 2 w (snd (follow_signal os same opposite balance price e w)).
Proof.
  unfold follow_signal. break_if; [now apply appended_refl|].
  set (w0 := track _ w).
  set (w1 := if _ <? _ then _ else _).
  assert (H1 : appended 1 w w1).
  { subst w1. break_if; [|now apply appended_refl].
    cbn [close_position_market snd].
    eapply (appended_send _ w w0); [apply closing_is_sound | | ]; reflexivity. }
  destruct (calculate_quantity _ _) as [q|] eqn:Hq;
    [|cbn [snd]; apply (appended_weaken 1 2); [lia | exact H1]].
  break_if; [|cbn [snd]; apply (appended_weaken 1 2); [lia | exact H1]].
  destruct (calculate_quantity_integer _ _ _ Hq) as (n & ->).
  cbn [snd]. apply (appended_trans 1 1 w w1); [exact H1|].
  apply open_position_market_appended.
Qed.

Lemma flat_signal_appended (long_size short_size : Q) (e : Env) (w : World) :
  appended 2 w (snd (flat_signal long_size short_size e w)).
Proof.
  unfold flat_signal, flatten, close_all. cbn [snd].
  set (w1 := if 0 <? long_size then _ else w).
  assert (H1 : appended 1 w w1).
  { subst w1. break_if; [|now apply appended_refl].
    cbn [close_position_market snd].
    eapply (appended_send _ w w); [apply closing_is_sound | | ]; reflexivity. }
  set (w2 := if 0 <? short_size then _ else w1).
  assert (H2 : appended 1 w1 w2).
  { subst w2. break_if; [|now apply appended_refl].
    cbn [close_position_market snd].
    eapply (appended_send _ w1 w1); [apply closing_is_sound | | ]; reflexivity. }
  destruct (appended_trans 1 1 w w1 w2 H1 H2) as (l & E & L & F).
  exists l. now split.
Qed.

Lemma webhook_appended (b : Body) (e : Env) (w : World) :
  appended 2 w (snd (webhook b e w)).
Proof.
  unfold webhook.
  destruct (body_dump b); [|now apply appended_refl].
  break_if; [now apply appended_refl|].
  destruct b as [|d|d mp prev]; try now apply appended_refl.
  destruct (get_lower mp); [|now apply appended_refl].
  destruct (get_lower prev); [|now apply appended_refl].
  rewrite get_cached_data_invalidate.
  set (w1 := refreshed e _).
  assert (Eo : orders w1 = orders w)
    by (subst w1; now rewrite refreshed_orders).
  assert (Hvia : forall w2, appended 2 w1 w2 -> appended 2 w w2).
  { intros w2 (l & E & L & F). exists l. rewrite E, Eo. now split. }
  break_if; [now apply appended_refl|].
  break_if; [apply Hvia, follow_signal_appended|].
  break_if; [apply Hvia, follow_signal_appended|].
  break_if; [apply Hvia, flat_signal_appended | now apply appended_refl].
Qed.

Lemma health_appended (e1 e2 : Env) (w : World) :
  appended 2 w (health e1 e2 w).
Proof.
  unfold health. break_if; [|now apply appended_refl].
  pose proof (check_stop_loss_appended e1 w) as H1.
  destruct (check_stop_loss e1 w) as [[|] w1]; cbn [snd] in H1.
  - apply (appended_trans 1 1 w w1); [exact H1|].
    apply check_trailing_profit_appended.
  - apply (appended_weaken 1 2); [lia | exact H1].
Qed.

Lemma appended_sound (n : nat) (w w' : World) :
  appended n w w' -> Forall sound_order (orders w) ->
  Forall sound_order (orders w').
Proof.
  intros (l & E & _ & F) H. rewrite E. now apply Forall_app.
Qed.

Lemma serve_appended (r : Request) (w : World) : appended 2 w (serve r w).
Proof.
  destruct r; cbn [serve].
  - apply webhook_appended.
  - apply health_appended.
  - apply (appended_weaken 1 2); [lia | apply check_stop_loss_appended].
  - apply (appended_weaken 1 2); [lia | apply check_trailing_profit_appended].
  - apply (appended_weaken 1 2); [lia | apply check_reentry_appended].
Qed.

(** X14. The order log only grows: each of the three checks sends at most
    one order, and a webhook or a health tick at most two, after the
    orders already in the log. *)
Theorem at_most_two_orders_per_request (w : World) :
  (forall e, exists l, orders (snd (check_stop_loss e w)) = orders w ++ l
                       /\ (length l <= 1)%nat)
  /\ (forall e, exists l, orders (snd (check_trailing_profit e w))
                          = orders w ++ l /\ (length l <= 1)%nat)
  /\ (forall e, exists l, orders (snd (check_reentry e w)) = orders w ++ l
                          /\ (length l <= 1)%nat)
  /\ (forall b e, exists l, orders (snd (webhook b e w)) = orders w ++ l
                            /\ (length l <= 2)%nat)
  /\ (forall e1 e2, exists l, orders (health e1 e2 w) = orders w ++ l
                              /\ (length l <= 2)%nat)
  /\ (forall rs, exists l, orders (run rs w) = orders w ++ l
                           /\ (length l <= 2 * length rs)%nat).
Proof.
  assert (Hdrop : forall n w1 w2, appended n w1 w2 ->
             exists l, orders w2 = orders w1 ++ l /\ (length l <= n)%nat).
  { intros n w1 w2 (l & E & L & _). now exists l. }
  split; [intro e; apply Hdrop, check_stop_loss_appended|].
  split; [intro e; apply Hdrop, check_trailing_profit_appended|].
  split; [intro e; apply Hdrop, check_reentry_appended|].
  split; [intros b e; apply Hdrop, webhook_appended|].
  split; [intros e1 e2; apply Hdrop, health_appended|].
  intro rs. apply Hdrop. revert w.
  induction rs as [|r rs IH]; intro w.
  - now apply appended_refl.
  - cbn [run fold_left length].
    replace (2 * S (length rs))%nat with (2 + 2 * length rs)%nat by lia.
    apply (appended_trans 2 _ w (serve r w)); [apply serve_appended|].
    apply IH.
Qed.

(** X15. In every state the program can reach, each opening order in the
    log is for at least one unit: the quantity handed to the venue is the
    rounded quantity itself, and an order is sent only when it is
    positive. *)
Theorem opening_orders_are_positive (w : World) (Hreach : reachable w) :
  Forall (fun o => reduce_only o = false -> (1 <= order_size o)%Z) (orders w).
Proof.
  destruct Hreach as (rs & ->).
  change (Forall sound_order (orders (run rs initial))).
  assert (H : forall w0, Forall sound_order (orders w0) ->
                         Forall sound_order (orders (run rs w0))).
  { induction rs as [|r rs IH]; intros w0 H0; [exact H0|].
    cbn [run fold_left]. apply IH.
    exact (appended_sound 2 w0 (serve r w0) (serve_appended r w0) H0). }
  apply H. constructor.
Qed.

Lemma opening_orders_are_positive_witness :
  Forall (fun o => reduce_only o = false -> (1 <= order_size o)%Z)
    (orders exhausted_long).
Proof.
  apply opening_orders_are_positive.
  now exists [open_long; TrailingCheck e_peak; TrailingCheck e_drop;
              ReentryCheck e_rejected; ReentryCheck e_rejected;
              ReentryCheck e_rejected].
Defined.

(** ** Quantity and notional value *)



(** ** Venue responses *)

Lemma scan_positions_snoc (l : list Position) (p : Position) (sizes : Q * Q) :
  fold_left scan_position (l ++ [p]) sizes
  = scan_position (fold_left scan_position l sizes) p.
Proof. now rewrite fold_left_app. Qed.

(** X17. [get_positions] answers (0, 0) unless the response carries the
    success code. Otherwise the long size is the [total] of the last entry
    of the list that is for the traded symbol with hold side long (0 when
    there is none, or when that entry has no total), and likewise the short
    size: entries for other symbols or other hold sides are ignored, and a
    later entry overrides an earlier one. *)
Theorem get_positions_last_entry_wins (data : option (ApiResponse Position)) :
  let last_total hold_side l :=
    match find (fun p => key_is (symbol p) TARGET_SYMBOL
                         && key_is (holdSide p) hold_side) (rev l) with
    | Some p => float_or_zero (total p)
    | None => 0
    end in
  (api_ok data = false -> get_positions data = (0, 0))
  /\ (forall r, data = Some r -> api_ok data = true ->
        get_positions data
        = (last_total "long"%string (api_data r),
           last_total "short"%string (api_data r))).
Proof.
  cbn zeta. split.
  - intro H. unfold get_positions. destruct data; [now rewrite H|reflexivity].
  - intros r -> Hok. unfold get_positions. rewrite Hok.
    induction (api_data r) as [|p l IH] using rev_ind; [reflexivity|].
    rewrite scan_positions_snoc, IH, rev_app_distr. cbn [rev app find].
    unfold scan_position.
    destruct (key_is (symbol p) TARGET_SYMBOL); cbn [andb fst snd];
      [|reflexivity].
    destruct (holdSide p) as [h|]; cbn [key_is]; [|reflexivity].
    destruct (String.eqb h "long") eqn:Hl.
    + apply String.eqb_eq in Hl. subst h. reflexivity.
    + destruct (String.eqb h "short"); reflexivity.
Qed.

Lemma get_positions_last_entry_wins_witness :
  get_positions positions_sample = (3840, 0).
Proof.
  destruct (get_positions_last_entry_wins positions_sample) as (_ & H).
  rewrite (H _ eq_refl eq_refl). reflexivity.
Defined.

(** X18. [get_account_balance] and [get_current_price] answer 0 unless the
    response carries the success code. Otherwise the balance is the
    [available] amount of the first account held in the margin coin,
    whatever follows it (0 when there is no such account, or no amount),
    and the price is [lastPr] of the first ticker (0 for an empty list or a
    missing field). *)
Theorem balance_and_price_first_entry
    (accounts : option (ApiResponse Account))
    (ticker : option (ApiResponse Ticker)) :
  (api_ok accounts = false -> get_account_balance accounts = 0)
  /\ (api_ok ticker = false -> get_current_price ticker = 0)
  /\ (forall r, accounts = Some r -> api_ok accounts = true ->
        get_account_balance accounts
        = match find (fun a => key_is (marginCoin a) MARGIN_COIN)
                  (api_data r) with
          | Some a => float_or_zero (available a)
          | None => 0
          end)
  /\ (forall c before a after,
        accounts = Some (mkApiResponse (Some c) (before ++ a :: after)) ->
        c = "00000"%string ->
        Forall (fun x => key_is (marginCoin x) MARGIN_COIN = false) before ->
        marginCoin a = Some MARGIN_COIN ->
        get_account_balance accounts = float_or_zero (available a))
  /\ (forall r, ticker = Some r -> api_ok ticker = true ->
        get_current_price ticker
        = match api_data r with
          | t :: _ => float_or_zero (lastPr t)
          | [] => 0
          end).
Proof.
  assert (Hfind : forall l,
             first_available l
             = match find (fun a => key_is (marginCoin a) MARGIN_COIN) l with
               | Some a => float_or_zero (available a)
               | None => 0
               end).
  { induction l as [|a l IH]; [reflexivity|]. cbn [first_available find].
    now destruct (key_is (marginCoin a) MARGIN_COIN). }
  split; [|split; [|split; [|split]]].
  - intro H. unfold get_account_balance.
    destruct accounts; [now rewrite H | reflexivity].
  - intro H. unfold get_current_price.
    destruct ticker; [now rewrite H | reflexivity].
  - intros r -> Hok. unfold get_account_balance. rewrite Hok. apply Hfind.
  - intros c before a after -> -> Hbefore Ha.
    unfold get_account_balance. cbn [api_ok api_code api_data].
    induction Hbefore as [|x l Hx _ IH].
    + cbn [app first_available]. rewrite Ha. cbn [key_is].
      now rewrite String.eqb_refl.
    + cbn [app first_available]. rewrite Hx. exact IH.
  - intros r -> Hok. unfold get_current_price. now rewrite Hok.
Qed.

Lemma balance_and_price_first_entry_witness :
  get_account_balance accounts_sample = 1000.
Proof.
  destruct (balance_and_price_first_entry accounts_sample None)
    as (_ & _ & _ & H & _).
  apply (H "00000"%string [mkAccount (Some "BTC"%string) (Some 2)]
           (mkAccount (Some "USDT"%string) (Some 1000))
           [mkAccount (Some "USDT"%string) (Some 7)]).
  - reflexivity.
  - reflexivity.
  - repeat constructor.
  - reflexivity.
Defined.

(** ** The status endpoint *)

Lemma status_world (e : Env) (w : World) :
  snd (status e w) = snd (get_cached_data e w).
Proof.
  unfold status. destruct (get_cached_data e w) as [snap w1].
  cbn [snd]. break_if; [reflexivity|]. now break_if.
Qed.

Lemma get_cached_data_frame (e : Env) (w : World) :
  snd (get_cached_data e w) = with_cache (cache (snd (get_cached_data e w))) w.
Proof.
  unfold get_cached_data.
  destruct (cache_data (cache w)); [destruct (_ <? _)|];
    cbn [snd with_cache cache]; now destruct w.
Qed.

Lemma refresh_forgets_cache (e : Env) (c : Cache) (w : World) :
  CACHE_TTL <= now_cache e ->
  get_cached_data e (invalidate (with_cache c w))
  = get_cached_data e (invalidate w).
Proof.
  intro H.
  assert (E : (now_cache e - 0 <? CACHE_TTL) = false)
    by (apply ltb_false_iff; lra).
  unfold get_cached_data, invalidate.
  cbn [with_cache cache cache_data cache_time position_tracker last_webhook
       orders].
  rewrite E.
  destruct (cache_data c); destruct (cache_data (cache w)); reflexivity.
Qed.

Lemma same_but_cache_refl {A : Type} (r : A * World) : same_but_cache r r.
Proof. now repeat split. Qed.

Lemma same_but_cache_early {A : Type} (a : A) (c : Cache) (w : World) :
  same_but_cache (a, with_cache c w) (a, w).
Proof. now repeat split. Qed.

Section CacheIndependence.

Variables (e : Env) (c : Cache) (w : World).
Hypothesis Hclock : CACHE_TTL <= now_cache e.

Lemma check_stop_loss_cache :
  same_but_cache (check_stop_loss e (with_cache c w)) (check_stop_loss e w).
Proof.
  unfold check_stop_loss. cbn [with_cache position_tracker].
  repeat (break_if; [apply same_but_cache_early|]).
  change (track (fun t => set_last_check t (now e)) (with_cache c w))
    with (with_cache c (track (fun t => set_last_check t (now e)) w)).
  rewrite (refresh_forgets_cache e c _ Hclock). apply same_but_cache_refl.
Qed.

Lemma check_reentry_cache :
  same_but_cache (check_reentry e (with_cache c w)) (check_reentry e w).
Proof.
  unfold check_reentry. cbn [with_cache position_tracker].
  repeat (break_if; [apply same_but_cache_early|]).
  rewrite (refresh_forgets_cache e c _ Hclock). apply same_but_cache_refl.
Qed.

Lemma check_trailing_profit_cache :
  same_but_cache (check_trailing_profit e (with_cache c w))
    (check_trailing_profit e w).
Proof.
  unfold check_trailing_profit. cbn [with_cache position_tracker].
  break_if; [apply same_but_cache_early|].
  break_if; [apply same_but_cache_early|].
  break_if; [apply check_reentry_cache|].
  break_if; [apply same_but_cache_early|].
  break_if; [apply same_but_cache_early|].
  rewrite (refresh_forgets_cache e c _ Hclock). apply same_but_cache_refl.
Qed.

Lemma webhook_cache (b : Body) :
  same_but_cache (webhook b e (with_cache c w)) (webhook b e w).
Proof.
  unfold webhook.
  destruct (body_dump b) as [d|]; [|apply same_but_cache_early].
  unfold is_duplicate. cbn [with_cache last_webhook].
  break_if; [apply same_but_cache_early|].
  destruct b as [|d'|d' mp prev]; try (now repeat split).
  destruct (get_lower mp) as [s|]; [|now repeat split].
  destruct (get_lower prev); [|now repeat split].
  change (track (fun t => set_tv_position t s)
            (with_last_webhook (mkLastWebhook (now e) (Some d))
               (with_cache c w)))
    with (with_cache c
            (track (fun t => set_tv_position t s)
               (with_last_webhook (mkLastWebhook (now e) (Some d)) w))).
  rewrite (refresh_forgets_cache e c _ Hclock). apply same_but_cache_refl.
Qed.

End CacheIndependence.

(** X19. [/status] reads and never writes the tracker, the dedup record or
    the order log; when the cached snapshot is younger than 100 ms it
    changes nothing at all. Since every check and the webhook refetch, a
    status call has no influence on what they do next (clock at or past
    0.1): outcome, tracker, dedup record and orders are the same as without
    the call. *)
Theorem status_does_not_disturb (e e' : Env) (w : World)
    (Hclock : CACHE_TTL <= now_cache e') :
  let w1 := snd (status e w) in
  (position_tracker w1 = position_tracker w
   /\ orders w1 = orders w /\ last_webhook w1 = last_webhook w)
  /\ (forall d, cache_data (cache w) = Some d ->
        now_cache e - cache_time (cache w) < CACHE_TTL -> w1 = w)
  /\ same_but_cache (check_stop_loss e' w1) (check_stop_loss e' w)
  /\ same_but_cache (check_trailing_profit e' w1) (check_trailing_profit e' w)
  /\ same_but_cache (check_reentry e' w1) (check_reentry e' w)
  /\ (forall b, same_but_cache (webhook b e' w1) (webhook b e' w)).
Proof.
  cbn zeta. rewrite status_world.
  split; [|split].
  - rewrite get_cached_data_frame. now repeat split.
  - intros d Hd Hsoon. unfold get_cached_data. rewrite Hd.
    apply ltb_true_iff in Hsoon. now rewrite Hsoon.
  - rewrite get_cached_data_frame.
    split; [now apply check_stop_loss_cache|].
    split; [now apply check_trailing_profit_cache|].
    split; [now apply check_reentry_cache|].
    intro b. now apply webhook_cache.
Qed.

Lemma status_does_not_disturb_witness :
  position_tracker (snd (check_reentry e_back (snd (status e_soon locked_long))))
  = position_tracker (snd (check_reentry e_back locked_long)).
Proof.
  destruct (status_does_not_disturb e_soon e_back locked_long)
    as (_ & _ & _ & _ & (_ & H & _) & _).
  - vm_compute; discriminate.
  - exact H.
Defined.

(** ** Opening on a signal *)



(** ** Trailing below the activation level *)

(** X21. While neither the stored peak nor the current unleveraged profit
    has reached 0.008, the trailing check of an OPEN position sends no
    order and does not lock, however far the price has fallen: only the
    peak may move. *)
Theorem trailing_inactive_below_activation (e : Env) (w : World)
    (Hopen : temporarily_closed (position_tracker w) = false)
    (Hpeak : peak_profit_percent (position_tracker w)
             < MIN_PROFIT_FOR_TRAILING)
    (Hpnl : directional (side (position_tracker w))
              (snap_price (observed e w)) (entry_price (position_tracker w))
            < MIN_PROFIT_FOR_TRAILING) :
  let w' := snd (check_trailing_profit e w) in
  orders w' = orders w
  /\ temporarily_closed (position_tracker w') = false
  /\ side (position_tracker w') = side (position_tracker w)
  /\ size (position_tracker w') = size (position_tracker w).
Proof.
  cbn zeta. unfold check_trailing_profit. rewrite Hopen.
  break_if; [now repeat split|]. break_if; [now repeat split|].
  break_if; [now repeat split|]. break_if; [now repeat split|].
  rewrite get_cached_data_invalidate.
  break_if; [cbn [snd]; rewrite refreshed_tracker, refreshed_orders;
             now repeat split|].
  break_if; [cbn [snd]; rewrite refreshed_tracker, refreshed_orders;
             now repeat split|].
  rewrite !refreshed_tracker.
  apply ltb_true_iff in Hpeak, Hpnl.
  destruct (peak_profit_percent (position_tracker w)
            <? directional (side (position_tracker w))
                 (snap_price (observed e w))
                 (entry_price (position_tracker w)));
    cbn [track position_tracker set_peak_profit_percent peak_profit_percent];
    rewrite ?refreshed_tracker, ?Hpnl, ?Hpeak;
    cbn [snd track position_tracker orders set_peak_profit_percent
           temporarily_closed side size];
    rewrite refreshed_tracker, refreshed_orders; now repeat split.
Qed.

Lemma trailing_inactive_below_activation_witness :
  orders (snd (check_trailing_profit e_stop (run [open_long] initial)))
  = orders (run [open_long] initial).
Proof.
  destruct (trailing_inactive_below_activation e_stop
              (run [open_long] initial)) as (H & _).
  - vm_compute; reflexivity.
  - vm_compute; reflexivity.
  - vm_compute; reflexivity.
  - exact H.
Defined.

(** ** Data-model invariants *)

Lemma flatten_FlatInv (w : World) : FlatInv (position_tracker (flatten w)).
Proof. intros _. now split. Qed.

Lemma record_open_FlatInv (os : OrderSide) (sz p : Q) (e : Env) (w : World) :
  FlatInv (position_tracker (record_open os sz p e w)).
Proof. intro H. cbn in H. destruct os; discriminate. Qed.

Lemma open_position_market_FlatInv (os : OrderSide) (sz : Q) (e : Env)
    (w : World) :
  FlatInv (position_tracker w) ->
  FlatInv (position_tracker (snd (open_position_market os sz e w))).
Proof.
  intro I. unfold open_position_market.
  break_if; [exact I|]. break_if; [exact I|].
  break_if; [apply record_open_FlatInv | exact I].
Qed.

Lemma check_stop_loss_FlatInv (e : Env) (w : World) :
  FlatInv (position_tracker w) ->
  FlatInv (position_tracker (snd (check_stop_loss e w))).
Proof.
  intro I. unfold check_stop_loss.
  repeat (break_if; [exact I|]).
  rewrite get_cached_data_invalidate.
  assert (I' : FlatInv (position_tracker
                 (refreshed e (track (fun t => set_last_check t (now e)) w))))
    by (rewrite refreshed_tracker; exact I).
  break_if; [exact I'|].
  break_if; [apply flatten_FlatInv|].
  break_if; [|exact I'].
  break_if; [exact I'|].
  cbn [close_position_market].
  break_if; [apply flatten_FlatInv | exact I'].
Qed.

Lemma check_reentry_FlatInv (e : Env) (w : World) :
  FlatInv (position_tracker w) ->
  FlatInv (position_tracker (snd (check_reentry e w))).
Proof.
  intro I. unfold check_reentry.
  repeat (break_if; [exact I|]).
  rewrite get_cached_data_invalidate.
  assert (I' : FlatInv (position_tracker (refreshed e w)))
    by (rewrite refreshed_tracker; exact I).
  break_if; [exact I'|]. break_if; [exact I'|].
  break_if; [|exact I'].
  set (w1 := track _ (refreshed e w)).
  assert (I1 : FlatInv (position_tracker w1)) by exact I'.
  destruct (calculate_quantity _ _) as [q|]; [|exact I1].
  break_if; [|exact I1].
  unfold open_position_market.
  break_if; [exact I1|]. break_if; [exact I1|].
  destruct (open_ok e); [|exact I1].
  intro H. cbn in H.
  destruct (side (position_tracker (refreshed e w))); discriminate.
Qed.

Lemma check_trailing_profit_FlatInv (e : Env) (w : World) :
  FlatInv (position_tracker w) ->
  FlatInv (position_tracker (snd (check_trailing_profit e w))).
Proof.
  intro I. unfold check_trailing_profit.
  break_if; [exact I|].
  destruct (side_empty (side (position_tracker w))
            || (size (position_tracker w) <=? 0)) eqn:Hg; [exact I|].
  break_if; [now apply check_reentry_FlatInv|].
  break_if; [exact I|]. break_if; [exact I|].
  rewrite get_cached_data_invalidate.
  assert (I' : FlatInv (position_tracker (refreshed e w)))
    by (rewrite refreshed_tracker; exact I).
  break_if; [exact I'|]. break_if; [exact I'|].
  set (w1 := if _ <? _ then _ else refreshed e w).
  assert (Hs1 : side (position_tracker w1) = side (position_tracker w))
    by (subst w1; break_if; cbn [track position_tracker];
        now rewrite refreshed_tracker).
  assert (I1 : FlatInv (position_tracker w1))
    by (subst w1; break_if; exact I').
  break_if; [exact I1|]. break_if; [|exact I1].
  cbn [close_position_market].
  break_if; [|exact I1].
  apply orb_false_iff in Hg. destruct Hg as (Hne & _).
  intro H. cbn in H. rewrite Hs1 in H. rewrite H in Hne. discriminate.
Qed.

Lemma webhook_FlatInv (b : Body) (e : Env) (w : World) :
  FlatInv (position_tracker w) ->
  FlatInv (position_tracker (snd (webhook b e w))).
Proof.
  intro I. unfold webhook.
  destruct (body_dump b); [|exact I].
  break_if; [exact I|].
  destruct b as [|d|d mp prev]; try exact I.
  destruct (get_lower mp); [|exact I].
  destruct (get_lower prev); [|exact I].
  rewrite get_cached_data_invalidate.
  set (w1 := refreshed e _).
  assert (I1 : FlatInv (position_tracker w1))
    by (subst w1; rewrite refreshed_tracker; exact I).
  assert (Hfollow : forall os same opposite bal pr,
             FlatInv (position_tracker
                        (snd (follow_signal os same opposite bal pr e w1)))).
  { intros os same opposite bal pr. unfold follow_signal.
    break_if; [exact I1|].
    set (w2 := if _ <? _ then _ else _).
    assert (I2 : FlatInv (position_tracker w2))
      by (subst w2; break_if; exact I1).
    destruct (calculate_quantity _ _); [|exact I2].
    break_if; [|exact I2].
    now apply open_position_market_FlatInv. }
  break_if; [exact I1|].
  break_if; [apply Hfollow|]. break_if; [apply Hfollow|].
  break_if; [|exact I1].
  intros _. now split.
Qed.

Lemma serve_FlatInv (r : Request) (w : World) :
  FlatInv (position_tracker w) -> FlatInv (position_tracker (serve r w)).
Proof.
  destruct r as [b e|e1 e2|e|e|e]; cbn [serve]; intro I.
  - now apply webhook_FlatInv.
  - unfold health. break_if; [|exact I].
    pose proof (check_stop_loss_FlatInv e1 w I) as I1.
    destruct (check_stop_loss e1 w) as [[|] w1]; cbn [snd] in I1;
      [now apply check_trailing_profit_FlatInv | exact I1].
  - now apply check_stop_loss_FlatInv.
  - now apply check_trailing_profit_FlatInv.
  - now apply check_reentry_FlatInv.
Qed.

(** X22. In every state the program can reach: a side is tracked exactly
    when the tracked size is positive, and a flat tracker has size 0; a
    tracked side has a positive entry price; a locked tracker
    (temporarily_closed) still has its side and has a positive re-entry
    price; and an open, unlocked position has no re-entry attempt
    counted. *)
Theorem tracker_invariants (w : World) (Hreach : reachable w) :
  let t := position_tracker w in
  (side t <> Flat <-> 0 < size t)
  /\ (side t = Flat -> size t = 0 /\ temporarily_closed t = false)
  /\ (side t <> Flat -> 0 < entry_price t)
  /\ (temporarily_closed t = true -> side t <> Flat /\ 0 < reentry_price t)
  /\ (temporarily_closed t = false -> side t <> Flat ->
      reentry_attempts t = 0%Z).
Proof.
  cbn zeta.
  assert (Hf : FlatInv (position_tracker w)).
  { destruct Hreach as (rs & ->).
    assert (H : forall w0, FlatInv (position_tracker w0) ->
                           FlatInv (position_tracker (run rs w0))).
    { induction rs as [|r rs IH]; intros w0 I0; [exact I0|].
      cbn [run fold_left]. apply IH. now apply serve_FlatInv. }
    apply H. intros _. now split. }
  pose proof (reachable_Inv w Hreach) as (_ & Hs & Hc & Hz & _).
  split; [|split; [exact Hf|split; [|split; [|exact Hz]]]].
  - split; [intro H; now apply Hs|].
    intros Hpos Hflat. destruct (Hf Hflat) as (E & _).
    rewrite E in Hpos. discriminate.
  - intro H. now apply Hs.
  - intro H. destruct (Hc H). now split.
Qed.

Lemma tracker_invariants_witness :
  side (position_tracker locked_long) <> Flat
  /\ 0 < reentry_price (position_tracker locked_long).
Proof.
  destruct (tracker_invariants locked_long reachable_locked_long)
    as (_ & _ & _ & H & _).
  apply H. vm_compute; reflexivity.
Defined.
